(** * Pose estimation relative to a circle pattern

    A shallow embedding of [visual_servo/estimation.py] (class
    [PoseEstimator]) and of the pose code of [visual_servo_control.py]
    (free functions [calc_circle_pattern] and [get_pose]).

    Conventions of the embedding.
    - Python [int] is [Z]; Python/NumPy [float] is idealised as a real
      number ([R]), so arithmetic is exact and [np.cos], [np.sin],
      [np.rad2deg] are the real functions.  Statements over [R] are about
      the expressions and branches of the code, not about rounding or
      overflow; where rounding matters the pattern is taken in binary64
      (module [binary64]).
    - A NumPy array of shape (n, m) is a list of n rows, each a list of m
      reals.  Index assignment follows NumPy: a negative index counts from
      the end, an index out of range raises [IndexError].
    - The OpenCV entry points ([cv2.findCirclesGrid], [cv2.solvePnP],
      [cv2.getOptimalNewCameraMatrix]) are not part of the repository; they
      are the operations of the interface [OpenCV] below and every
      statement holds for all their implementations.
    - Every call that reaches OpenCV with an image is recorded in a trace,
      so that "the solver is not invoked" is a statement about the trace. *)

From Stdlib Require Import Reals Lra Lia ZArith List.
From Stdlib Require Floats.PrimFloat.
From stdpp Require Import base list.
Import ListNotations.

(** ** Python results and exceptions *)

(** The exceptions that the modelled code can raise: [ValueError] from
    [np.zeros] with a negative dimension, [IndexError] from an index
    assignment out of range, [Cv2Error] for an exception coming out of an
    OpenCV call. *)
Inductive PyError : Type :=
| ValueError
| IndexError
| Cv2Error.

Inductive PyResult (A : Type) : Type :=
| Ok (a : A)
| Raise (e : PyError).
Arguments Ok {A} a.
Arguments Raise {A} e.

Definition raises {A : Type} (r : PyResult A) : Prop :=
  match r with
  | Ok _ => False
  | Raise _ => True
  end.

Definition bindR {A B : Type} (r : PyResult A) (k : A -> PyResult B) : PyResult B :=
  match r with
  | Ok a => k a
  | Raise e => Raise e
  end.

Declare Scope py_scope.
Delimit Scope py_scope with py.
Notation "'let!' x := c 'in' k" := (bindR c (fun x => k))
  (at level 10, x name, c at level 100, k at level 200) : py_scope.

(** [for x in xs: body], threading the loop's state and stopping at the
    first exception. *)
Fixpoint for_each {S X : Type} (xs : list X) (body : X -> S -> PyResult S) (s : S)
  : PyResult S :=
  match xs with
  | [] => Ok s
  | x :: xs' =>
      match body x s with
      | Ok s' => for_each xs' body s'
      | Raise e => Raise e
      end
  end.

(** [range(n)]: 0, 1, ..., n-1; empty when n <= 0. *)
Definition range (n : Z) : list Z := map Z.of_nat (seq 0 (Z.to_nat n)).

(** ** NumPy arrays of shape (n, m) *)

Abbreviation ndarray := (list (list R)).

(** [np.zeros([n, m])]; a negative dimension raises [ValueError].  The
    limits of allocation are not modelled: NumPy also refuses sizes too
    large for memory, so nothing here is stated about when a non-negative
    size succeeds in general. *)
Definition np_zeros (n m : Z) : PyResult ndarray :=
  if ((n <? 0) || (m <? 0))%Z then Raise ValueError
  else Ok (replicate (Z.to_nat n) (replicate (Z.to_nat m) 0%R)).

(** Index normalisation along an axis of length [len]: [0 <= k < len]
    is itself, [-len <= k < 0] counts from the end, anything else is out of
    range. *)
Definition norm_index (len : nat) (k : Z) : option nat :=
  if ((0 <=? k) && (k <? Z.of_nat len))%Z then Some (Z.to_nat k)
  else if ((- Z.of_nat len <=? k) && (k <? 0))%Z then Some (Z.to_nat (Z.of_nat len + k))
  else None.

(** [a[k, c] = v]. *)
Definition setitem2 (a : ndarray) (k c : Z) (v : R) : PyResult ndarray :=
  match norm_index (length a) k with
  | None => Raise IndexError
  | Some k' =>
      match a !! k' with
      | None => Raise IndexError
      | Some row =>
          match norm_index (length row) c with
          | None => Raise IndexError
          | Some c' => Ok (<[k' := <[c' := v]> row]> a)
          end
      end
  end.

(** [a[k]] on a list-like axis. *)
Definition getitem {A : Type} (a : list A) (k : Z) : PyResult A :=
  match norm_index (length a) k with
  | None => Raise IndexError
  | Some k' =>
      match a !! k' with
      | None => Raise IndexError
      | Some x => Ok x
      end
  end.

(** [np.array(values).reshape((rows, cols))] for a flat list of
    [rows * cols] values (the only use in the source). *)
Fixpoint reshape (rows cols : nat) (values : list R) : ndarray :=
  match rows with
  | O => []
  | S rows' => take cols values :: reshape rows' cols (drop cols values)
  end.

(** [np.rad2deg]. *)
Definition rad2deg (x : R) : R := (x * (180 / PI))%R.

(** ** The OpenCV interface *)

(** An image buffer: height x width x channels. *)
Definition Image : Type := list (list (list Z)).

(** A [cv2.SimpleBlobDetector] is determined by the two parameters the
    source sets ([SimpleBlobDetector_Params] with [minArea] and
    [minDistBetweenBlobs], then [SimpleBlobDetector_create]). *)
Record BlobDetector : Type := SimpleBlobDetector_create
  { minArea : Z;
    minDistBetweenBlobs : Z }.

(** [cv2.CALIB_CB_SYMMETRIC_GRID]. *)
Definition CALIB_CB_SYMMETRIC_GRID : Z := 1.

(** The three OpenCV functions the source calls.
    - [findCirclesGrid obs patternSize flags blobDetector] returns
      [(detection, centers)]; [centers] has shape (n, 1, 2) and is
      represented by its n points, each a row of two reals (no centers,
      Python's [None], is the empty list; the source reads [centers] only
      after a detection).  The detector is taken on the images it accepts:
      statements about a frame are about a frame for which it returns.
    - [solvePnP objectPoints imagePoints cameraMatrix distCoeffs] returns
      [(success, rotation_vector, translation_vector)], the two vectors of
      shape (3, 1), or raises.  The calibration arguments are optional
      because the source can pass Python's [None].
    - [getOptimalNewCameraMatrix cameraMatrix distCoeffs imageSize alpha]
      returns the new matrix and the valid region of interest. *)
Class OpenCV : Type :=
  { findCirclesGrid : Image -> Z * Z -> Z -> BlobDetector -> bool * ndarray;
    solvePnP : ndarray -> ndarray -> option ndarray -> option ndarray ->
               PyResult (bool * ndarray * ndarray);
    getOptimalNewCameraMatrix : ndarray -> ndarray -> Z * Z -> Z ->
                                ndarray * (Z * Z * Z * Z) }.

(** [centers[:, 0, :]]: drops the axis of length one of the (n, 1, 2)
    array; in the representation by points it is the same list. *)
Definition slice_all_0_all (centers : ndarray) : ndarray := centers.

(** The calls that hand an image or correspondences to OpenCV. *)
Inductive Call : Type :=
| CallFindCirclesGrid (obs : Image) (patternSize : Z * Z) (flags : Z)
    (blobDetector : BlobDetector)
| CallSolvePnP (objectPoints imagePoints : ndarray)
    (cameraMatrix distCoeffs : option ndarray).

Definition is_solvePnP (c : Call) : bool :=
  match c with
  | CallSolvePnP _ _ _ _ => true
  | CallFindCirclesGrid _ _ _ _ => false
  end.

(** ** Stateful code: an object, a trace of OpenCV calls, exceptions *)

Record World (Obj : Type) : Type := mkWorld
  { this : Obj;
    calls : list Call }.
Arguments mkWorld {Obj} this calls.
Arguments this {Obj} w.
Arguments calls {Obj} w.

Definition M (Obj A : Type) : Type := World Obj -> PyResult A * World Obj.

Definition ret {Obj A : Type} (a : A) : M Obj A := fun w => (Ok a, w).

Definition bind {Obj A B : Type} (m : M Obj A) (k : A -> M Obj B) : M Obj B :=
  fun w =>
    match m w with
    | (Ok a, w') => k a w'
    | (Raise e, w') => (Raise e, w')
    end.

Definition get_this {Obj : Type} : M Obj Obj := fun w => (Ok (this w), w).

Definition modify_this {Obj : Type} (f : Obj -> Obj) : M Obj unit :=
  fun w => (Ok tt, mkWorld (f (this w)) (calls w)).

Definition lift {Obj A : Type} (r : PyResult A) : M Obj A := fun w => (r, w).

Definition log {Obj : Type} (c : Call) : M Obj unit :=
  fun w => (Ok tt, mkWorld (this w) (calls w ++ [c])).

Declare Scope world_scope.
Delimit Scope world_scope with world.
Notation "'do!' x := c 'in' k" := (bind c (fun x => k))
  (at level 10, x name, c at level 100, k at level 200) : world_scope.
Notation "'do!' ' p := c 'in' k" := (bind c (fun x => match x with p => k end))
  (at level 10, p pattern, c at level 100, k at level 200) : world_scope.
Notation "c ;;; k" := (bind c (fun _ => k))
  (at level 100, k at level 200, right associativity) : world_scope.

Section Cv2Calls.
Context {cv2 : OpenCV}.

(** The two per-frame OpenCV calls, recorded in the trace. *)
Definition cv2_findCirclesGrid {Obj : Type} (obs : Image) (patternSize : Z * Z)
    (flags : Z) (blobDetector : BlobDetector) : M Obj (bool * ndarray) :=
  (log (CallFindCirclesGrid obs patternSize flags blobDetector) ;;;
   ret (findCirclesGrid obs patternSize flags blobDetector))%world.

Definition cv2_solvePnP {Obj : Type} (objectPoints imagePoints : ndarray)
    (cameraMatrix distCoeffs : option ndarray) : M Obj (bool * ndarray * ndarray) :=
  (log (CallSolvePnP objectPoints imagePoints cameraMatrix distCoeffs) ;;;
   lift (solvePnP objectPoints imagePoints cameraMatrix distCoeffs))%world.
End Cv2Calls.

(** ** [visual_servo/estimation.py] *)

Module estimation.

(** The attributes of a [PoseEstimator]; [camera_matrix] and
    [distortion_coefs] are [None] until [initialize_camera_matrix]
    assigns them. *)
Record PoseEstimator : Type := mkPoseEstimator
  { detector : BlobDetector;
    circle_pattern_dist : R;
    height : Z;
    width : Z;
    circle_pattern : ndarray;
    target_distance : R;
    camera_matrix : option ndarray;
    distortion_coefs : option ndarray;
    counter : Z }.

Definition set_camera_matrix (v : option ndarray) (self : PoseEstimator)
  : PoseEstimator :=
  mkPoseEstimator (detector self) (circle_pattern_dist self) (height self)
    (width self) (circle_pattern self) (target_distance self)
    v (distortion_coefs self) (counter self).

Definition set_distortion_coefs (v : option ndarray) (self : PoseEstimator)
  : PoseEstimator :=
  mkPoseEstimator (detector self) (circle_pattern_dist self) (height self)
    (width self) (circle_pattern self) (target_distance self)
    (camera_matrix self) v (counter self).

Definition set_counter (v : Z) (self : PoseEstimator) : PoseEstimator :=
  mkPoseEstimator (detector self) (circle_pattern_dist self) (height self)
    (width self) (circle_pattern self) (target_distance self)
    (camera_matrix self) (distortion_coefs self) v.

(** [PoseEstimator._calc_circle_pattern].  The method reads
    [self.circle_pattern_dist], [self.height] and [self.width]; they are
    the three arguments here.  The outer loop runs over the columns [i],
    the inner one over the rows [j], and the point [(i, j)] is stored at
    flat index [i + j * width]. *)
Definition _calc_circle_pattern (circle_pattern_dist : R) (height width : Z)
  : PyResult ndarray :=
  (let! circle_pattern := np_zeros (height * width) 3 in
   for_each (range width) (fun i circle_pattern =>
     for_each (range height) (fun j circle_pattern =>
       let! circle_pattern := setitem2 circle_pattern (i + j * width) 0
         (circle_pattern_dist * IZR i - circle_pattern_dist * IZR (width - 1) / 2)%R in
       setitem2 circle_pattern (i + j * width) 1
         (circle_pattern_dist * IZR j - circle_pattern_dist * IZR (height - 1) / 2)%R)
     circle_pattern)
   circle_pattern)%py.

(** The calibration literals of [initialize_camera_matrix]. *)
Definition raw_camera_matrix : ndarray :=
  reshape 3 3 [305.5718893575089; 0; 303.0797142544728;
               0; 308.8338858195428; 231.8845403702499;
               0; 0; 1]%R.

Definition nominal_distortion_coefs : ndarray :=
  reshape 1 5 [-0.2; 0.0305; 0.0005859930422629722; -0.0006697840226199427; 0]%R.

Definition zero_distortion_coefs : ndarray :=
  reshape 1 5 [0; 0; 0; 0; 0]%R.

Definition alternate_camera_matrix : ndarray :=
  reshape 3 3 [307.7379294605756; 0; 329.692367951685;
               0; 314.987773443905; 244.4605588877848;
               0; 0; 1]%R.

Definition alternate_distortion_coefs : ndarray :=
  reshape 1 5 [-0.2565888993516047; 0.04481160508242147; -0.00505275149956019;
               0.00130856936797665; 0]%R.

Section PoseEstimatorMethods.
Context {cv2 : OpenCV}.

(** [PoseEstimator.initialize_camera_matrix]: an [if]/[elif] chain
    over [camera_mode] with no final [else]. *)
Definition initialize_camera_matrix (camera_mode : Z) : M PoseEstimator unit :=
  let camera_matrix := raw_camera_matrix in
  let distortion_coefs := nominal_distortion_coefs in
  let '(new_camera_matrix, _) :=
    getOptimalNewCameraMatrix camera_matrix distortion_coefs (640, 480)%Z 0 in
  (if (camera_mode =? 0)%Z then
     modify_this (set_camera_matrix (Some new_camera_matrix)) ;;;
     modify_this (set_distortion_coefs (Some zero_distortion_coefs))
   else if (camera_mode =? 1)%Z then
     modify_this (set_camera_matrix (Some new_camera_matrix)) ;;;
     modify_this (set_distortion_coefs (Some distortion_coefs))
   else if (camera_mode =? 2)%Z then
     modify_this (set_camera_matrix (Some camera_matrix)) ;;;
     modify_this (set_distortion_coefs (Some zero_distortion_coefs))
   else if (camera_mode =? 3)%Z then
     modify_this (set_camera_matrix (Some camera_matrix)) ;;;
     modify_this (set_distortion_coefs (Some distortion_coefs))
   else if (camera_mode =? 4)%Z then
     modify_this (set_camera_matrix (Some alternate_camera_matrix)) ;;;
     modify_this (set_distortion_coefs (Some alternate_distortion_coefs))
   else
     ret tt)%world.

(** [PoseEstimator.__init__].  The attributes are assigned in the
    order of the source: the pattern is computed from the three
    attributes set before it, the calibration attributes start as
    [None], [initialize_camera_matrix] runs on the object, and
    [counter] is assigned last. *)
Definition __init__ (min_area min_dist_between_blobs height width : Z)
    (circle_pattern_dist target_distance : R) (camera_mode : Z)
  : PyResult PoseEstimator :=
  let detector := SimpleBlobDetector_create min_area min_dist_between_blobs in
  (let! circle_pattern := _calc_circle_pattern circle_pattern_dist height width in
   let self :=
     mkPoseEstimator detector circle_pattern_dist height width circle_pattern
       target_distance None None 0 in
   match initialize_camera_matrix camera_mode (mkWorld self []) with
   | (Ok _, w) => Ok (set_counter 0 (this w))
   | (Raise e, _) => Raise e
   end)%py.

(** [PoseEstimator.get_pose]. *)
Definition get_pose (obs : Image)
  : M PoseEstimator (bool * option (list R * R)) :=
  (do! self := get_this in
   do! '(detection, centers) :=
     cv2_findCirclesGrid obs (width self, height self) CALIB_CB_SYMMETRIC_GRID
       (detector self) in
   if detection then
     let image_points := slice_all_0_all centers in
     do! '(_, rotation_vector, translation_vector) :=
       cv2_solvePnP (circle_pattern self) image_points
         (camera_matrix self) (distortion_coefs self) in
     do! theta := lift (let! r := getitem rotation_vector 1 in getitem r 0)%py in
     do! x_bumper := lift (let! r := getitem translation_vector 0 in getitem r 0)%py in
     do! y_bumper := lift (let! r := getitem translation_vector 2 in getitem r 0)%py in
     let y_target := (y_bumper - target_distance self * cos theta)%R in
     let x_target := (x_bumper + target_distance self * sin theta)%R in
     ret (detection, Some ([y_target; 0; x_target]%R, (- rad2deg theta)%R))
   else
     ret (detection, None))%world.
End PoseEstimatorMethods.

End estimation.

(** ** [visual_servo_control.py] *)

Module visual_servo_control.

(** The module-level [detector]: [minArea = 5],
    [minDistBetweenBlobs = 1]. *)
Definition detector : BlobDetector := SimpleBlobDetector_create 5 1.

(** [calc_circle_pattern(height, width)], with its local
    [circlepattern_dist = 0.0125]. *)
Definition calc_circle_pattern (height width : Z) : PyResult ndarray :=
  let circlepattern_dist := 0.0125%R in
  (let! circlepattern := np_zeros (height * width) 3 in
   for_each (range width) (fun i circlepattern =>
     for_each (range height) (fun j circlepattern =>
       let! circlepattern := setitem2 circlepattern (i + j * width) 0
         (circlepattern_dist * IZR i - circlepattern_dist * IZR (width - 1) / 2)%R in
       setitem2 circlepattern (i + j * width) 1
         (circlepattern_dist * IZR j - circlepattern_dist * IZR (height - 1) / 2)%R)
     circlepattern)
   circlepattern)%py.

(** What [get_pose] returns next to the detection flag: the Python list
    [[np.array([y, 0, x]), theta]], or the empty array [np.array([])]. *)
Inductive Payload : Type :=
| PoseList (position : list R) (theta : R)
| EmptyArray.

(** The pose a payload carries, if any. *)
Definition pose_of (p : Payload) : option (list R * R) :=
  match p with
  | PoseList position theta => Some (position, theta)
  | EmptyArray => None
  end.

(** [len] of a payload. *)
Definition payload_len (p : Payload) : nat :=
  match p with
  | PoseList _ _ => 2
  | EmptyArray => 0
  end.

Section ControlFunctions.
Context {cv2 : OpenCV}.

(** The body shared, textually, by the four branches of [get_pose];
    they differ in the calibration arguments of [solvePnP] only. *)
Definition solve_branch (detection : bool) (centers : ndarray)
    (cameraMatrix distCoeffs : ndarray) : M unit (bool * Payload) :=
  (do! object_points := lift (calc_circle_pattern 3 8) in
   let image_points := slice_all_0_all centers in
   do! '(success, rotation_vector, translation_vector) :=
     cv2_solvePnP object_points image_points (Some cameraMatrix) (Some distCoeffs) in
   do! x := lift (let! r := getitem translation_vector 2 in getitem r 0)%py in
   do! y := lift (let! r := getitem translation_vector 0 in getitem r 0)%py in
   do! theta := lift (let! r := getitem rotation_vector 1 in
                      let! t := getitem r 0 in Ok (rad2deg t))%py in
   ret (detection, PoseList [y; 0; x]%R theta))%world.

(** [get_pose(obs, option)].  The literal [np.array([0, 0, 0, 0, 0])]
    of options 0 and 2 has shape (5,), a single row here. *)
Definition get_pose (obs : Image) (option : Z) : M unit (bool * Payload) :=
  let camera_matrix := estimation.raw_camera_matrix in
  let distortion_coefs := estimation.nominal_distortion_coefs in
  let '(new_camera_matrix, b) :=
    getOptimalNewCameraMatrix camera_matrix distortion_coefs (640, 480)%Z 0 in
  (do! '(detection, centers) :=
     cv2_findCirclesGrid obs (8, 3)%Z CALIB_CB_SYMMETRIC_GRID detector in
   if detection && (option =? 0)%Z then
     solve_branch detection centers new_camera_matrix [[0; 0; 0; 0; 0]%R]
   else if detection && (option =? 1)%Z then
     solve_branch detection centers new_camera_matrix distortion_coefs
   else if detection && (option =? 2)%Z then
     solve_branch detection centers camera_matrix [[0; 0; 0; 0; 0]%R]
   else if detection && (option =? 3)%Z then
     solve_branch detection centers camera_matrix distortion_coefs
   else
     ret (detection, EmptyArray))%world.
End ControlFunctions.

(** *** The teleoperation loop: [update]. *)

(** The keys the module reads from pyglet's [key_handler]; the handler
    answers, for a key, whether it is held. *)
Inductive Key : Type :=
| UP | DOWN | LEFT | RIGHT | SPACE | LSHIFT | RETURN.

(** NumPy arrays of shape (2,) with their element type.  [np.array] of a
    list of Python ints has the integer type, of a list with a float the
    floating type. *)
Inductive dtype : Type := np_int | np_float.

Record Array2 : Type := mkArray2
  { dtype_of : dtype;
    item0 : R;
    item1 : R }.

(** The outcome of an in-place operation: the array, or NumPy's
    [UFuncTypeError] (a [TypeError]) when the result cannot be cast back
    to the array's element type. *)
Inductive InPlace (A : Type) : Type :=
| Updated (a : A)
| UFuncTypeError.
Arguments Updated {A} a.
Arguments UFuncTypeError {A}.

Definition result_type (a b : dtype) : dtype :=
  match a, b with
  | np_int, np_int => np_int
  | _, _ => np_float
  end.

(** [np.can_cast(from, to, casting='same_kind')]. *)
Definition can_cast_same_kind (from to : dtype) : bool :=
  match from, to with
  | np_float, np_int => false
  | _, _ => true
  end.

(** [a op= b], elementwise, for an operand of element type [b_dtype]. *)
Definition inplace (op : R -> R -> R) (a : Array2) (b_dtype : dtype) (b0 b1 : R)
  : InPlace Array2 :=
  if can_cast_same_kind (result_type (dtype_of a) b_dtype) (dtype_of a)
  then Updated (mkArray2 (dtype_of a) (op (item0 a) b0) (op (item1 a) b1))
  else UFuncTypeError.

(** [a += b] and [a -= b] for two arrays, [a *= k] for a Python float. *)
Definition iadd (a b : Array2) : InPlace Array2 :=
  inplace Rplus a (dtype_of b) (item0 b) (item1 b).

Definition isub (a b : Array2) : InPlace Array2 :=
  inplace Rminus a (dtype_of b) (item0 b) (item1 b).

Definition imul_float (a : Array2) (k : R) : InPlace Array2 :=
  inplace Rmult a np_float k k.

(** [a[0] = v] and [a[1] = v] with a scalar read from the same array. *)
Definition setitem0 (a : Array2) (v : R) : Array2 := mkArray2 (dtype_of a) v (item1 a).
Definition setitem1 (a : Array2) (v : R) : Array2 := mkArray2 (dtype_of a) (item0 a) v.

Definition bindI {A B : Type} (r : InPlace A) (k : A -> InPlace B) : InPlace B :=
  match r with
  | Updated a => k a
  | UFuncTypeError => UFuncTypeError
  end.

(** [if cond: action op= ...]. *)
Definition when (cond : bool) (f : Array2 -> InPlace Array2) (action : Array2)
  : InPlace Array2 :=
  if cond then f action else Updated action.

(** The first part of [update], up to the first [env.step(action)]: the
    action computed from the keys that are held. *)
Definition update_action (key_handler : Key -> bool) : InPlace Array2 :=
  let action := mkArray2 np_float 0.0 0.0 in
  bindI (when (key_handler UP) (fun action => iadd action (mkArray2 np_float 0.44 0.0)) action)
  (fun action =>
  bindI (when (key_handler DOWN) (fun action => isub action (mkArray2 np_float 0.44 0)) action)
  (fun action =>
  bindI (when (key_handler LEFT) (fun action => iadd action (mkArray2 np_int 0 1)) action)
  (fun action =>
  bindI (when (key_handler RIGHT) (fun action => isub action (mkArray2 np_int 0 1)) action)
  (fun action =>
  let action := if key_handler SPACE then mkArray2 np_int 0 0 else action in
  let v1 := item0 action in
  let v2 := item1 action in
  let action := setitem0 action v1 in
  let action := setitem1 action v2 in
  when (key_handler LSHIFT) (fun action => imul_float action 1.5) action)))).

End visual_servo_control.

(** ** The pattern in binary64 *)

(** The code computes in IEEE binary64.  Where a statement is about
    rounding, the pattern generation is taken in that arithmetic: the same
    loops and index assignments as [estimation._calc_circle_pattern], over
    Rocq's primitive binary64 floats. *)
Module binary64.
Import PrimFloat.

(** The conversion Python applies to an [int] operand of a float
    operation; exact for integers below 2^53 in absolute value. *)
Fixpoint float_of_positive (p : positive) : float :=
  match p with
  | xH => 1%float
  | xO q => (2 * float_of_positive q)%float
  | xI q => (2 * float_of_positive q + 1)%float
  end.

Definition float_of_Z (z : Z) : float :=
  match z with
  | Z0 => 0%float
  | Zpos p => float_of_positive p
  | Zneg p => (- float_of_positive p)%float
  end.

(** [np.zeros([n, m])]. *)
Definition np_zeros (n m : Z) : PyResult (list (list float)) :=
  if ((n <? 0) || (m <? 0))%Z then Raise ValueError
  else Ok (replicate (Z.to_nat n) (replicate (Z.to_nat m) 0%float)).

(** [a[k, c] = v]. *)
Definition setitem2 (a : list (list float)) (k c : Z) (v : float)
  : PyResult (list (list float)) :=
  match norm_index (length a) k with
  | None => Raise IndexError
  | Some k' =>
      match a !! k' with
      | None => Raise IndexError
      | Some row =>
          match norm_index (length row) c with
          | None => Raise IndexError
          | Some c' => Ok (<[k' := <[c' := v]> row]> a)
          end
      end
  end.

(** [PoseEstimator._calc_circle_pattern] in binary64. *)
Definition _calc_circle_pattern (circle_pattern_dist : float) (height width : Z)
  : PyResult (list (list float)) :=
  (let! circle_pattern := np_zeros (height * width) 3 in
   for_each (range width) (fun i circle_pattern =>
     for_each (range height) (fun j circle_pattern =>
       let! circle_pattern := setitem2 circle_pattern (i + j * width) 0
         (circle_pattern_dist * float_of_Z i
          - circle_pattern_dist * float_of_Z (width - 1) / 2)%float in
       setitem2 circle_pattern (i + j * width) 1
         (circle_pattern_dist * float_of_Z j
          - circle_pattern_dist * float_of_Z (height - 1) / 2)%float)
     circle_pattern)
   circle_pattern)%py.


(** [np.mean(a, axis=0)]: each column summed row after row, divided by
    the number of rows; undefined for an array without rows. *)
Definition col_sum (c : nat) (a : list (list float)) : float :=
  fold_left (fun acc row => (acc + default 0%float (row !! c))%float) a 0%float.




End binary64.

(** * Vocabulary of the statements *)

(** ** The pattern, point by point *)

(** The point of column [i] and row [j] of a pattern of [h] rows and [w]
    columns, [d] apart. *)
Definition pattern_point (d : R) (h w : nat) (i j : nat) : list R :=
  [d * IZR (Z.of_nat i) - d * IZR (Z.of_nat w - 1) / 2;
   d * IZR (Z.of_nat j) - d * IZR (Z.of_nat h - 1) / 2;
   0]%R.

(** Column [i], row [j] has been written when the outer loop is at
    column [n] and the inner loop at row [m]. *)
Definition written (n m i j : nat) : bool :=
  (i <? n)%nat || ((i =? n)%nat && (j <? m)%nat).

(** The invariant of the two loops of [_calc_circle_pattern]. *)
Definition pattern_inv (d : R) (h w : nat) (n m : nat) (a : ndarray) : Prop :=
  length a = (h * w)%nat /\
  forall i j, (i < w)%nat -> (j < h)%nat ->
    a !! (i + j * w)%nat
    = Some (if written n m i j then pattern_point d h w i j else [0; 0; 0]%R).

(** The pattern in closed form: row after row, each row column after
    column. *)
Definition grid (d : R) (h w : nat) : ndarray :=
  flat_map (fun j => map (fun i => pattern_point d h w i j) (seq 0 w)) (seq 0 h).

(** ** The centroid *)

(** [np.mean(a, axis=0)] of an array with three columns: the centroid of
    its rows; undefined ([nan] in NumPy) for an array without rows. *)
Definition Rsum (l : list R) : R := fold_right Rplus 0%R l.

Definition col_sum (c : nat) (a : ndarray) : R :=
  Rsum (map (fun row => default 0%R (row !! c)) a).


(** ** The calibration table *)

(** The camera matrix and distortion coefficients that
    [initialize_camera_matrix] leaves on an object that had [before];
    [initialize_camera_matrix_run] below proves it of the code. *)
Definition selected {cv2 : OpenCV} (camera_mode : Z)
    (before : option ndarray * option ndarray) : option ndarray * option ndarray :=
  let rectified :=
    fst (getOptimalNewCameraMatrix estimation.raw_camera_matrix
           estimation.nominal_distortion_coefs (640, 480)%Z 0) in
  if (camera_mode =? 0)%Z then (Some rectified, Some estimation.zero_distortion_coefs)
  else if (camera_mode =? 1)%Z then
    (Some rectified, Some estimation.nominal_distortion_coefs)
  else if (camera_mode =? 2)%Z then
    (Some estimation.raw_camera_matrix, Some estimation.zero_distortion_coefs)
  else if (camera_mode =? 3)%Z then
    (Some estimation.raw_camera_matrix, Some estimation.nominal_distortion_coefs)
  else if (camera_mode =? 4)%Z then
    (Some estimation.alternate_camera_matrix, Some estimation.alternate_distortion_coefs)
  else before.

(** ** Test doubles for OpenCV *)

(** A detector that answers [detection] for every image, a solver that
    answers [(success, (0, theta, 0), (x, 0, y))] for every query, and a
    rectification that answers the alternate matrix. *)
Definition stub_cv2 (detection success : bool) (theta x y : R) : OpenCV :=
  {| findCirclesGrid := fun _ _ _ _ => (detection, if detection then [[0; 0]%R] else []);
     solvePnP := fun _ _ _ _ => Ok (success, [[0]; [theta]; [0]], [[x]; [0]; [y]])%R;
     getOptimalNewCameraMatrix := fun _ _ _ _ =>
       (estimation.alternate_camera_matrix, (0, 0, 640, 480)%Z) |}.

(** An estimator for the 3 x 8 pattern with stand-off distance 1 and no
    calibration assigned. *)
Definition stub_estimator : estimation.PoseEstimator :=
  estimation.mkPoseEstimator (SimpleBlobDetector_create 5 1) 0.0125 3 8
    (grid 0.0125 3 8) 1 None None 0.

Definition stub_image : Image := [].

(** An OpenCV whose detector finds the pattern and whose solver raises. *)
Definition raising_cv2 : OpenCV :=
  {| findCirclesGrid := fun _ _ _ _ => (true, [[0; 0]%R]);
     solvePnP := fun _ _ _ _ => Raise Cv2Error;
     getOptimalNewCameraMatrix := fun _ _ _ _ =>
       (estimation.alternate_camera_matrix, (0, 0, 640, 480)%Z) |}.

(** Keys held, as a handler. *)
Definition holding (keys : list visual_servo_control.Key)
  : visual_servo_control.Key -> bool :=
  fun k =>
    existsb (fun k' =>
      match k, k' with
      | visual_servo_control.UP, visual_servo_control.UP
      | visual_servo_control.DOWN, visual_servo_control.DOWN
      | visual_servo_control.LEFT, visual_servo_control.LEFT
      | visual_servo_control.RIGHT, visual_servo_control.RIGHT
      | visual_servo_control.SPACE, visual_servo_control.SPACE
      | visual_servo_control.LSHIFT, visual_servo_control.LSHIFT
      | visual_servo_control.RETURN, visual_servo_control.RETURN => true
      | _, _ => false
      end) keys.

(** * Properties *)

(** Evaluate the integer expressions under [IZR], so that [lra] sees
    numerals. *)
Ltac eval_IZR :=
  repeat match goal with
    | |- context [IZR ?z] =>
        let z' := eval vm_compute in z in
        progress change (IZR z) with (IZR z')
    end.

Example range_3 : range 3 = [0; 1; 2]%Z.
Proof. reflexivity. Qed.

Example zeros_negative : np_zeros (-2) 3 = Raise ValueError.
Proof. reflexivity. Qed.

Example pattern_1x2 :
  estimation._calc_circle_pattern 1 1 2 = Ok [[0 - 1/2; 0; 0]; [1 - 1/2; 0; 0]]%R.
Proof.
  unfold estimation._calc_circle_pattern, np_zeros, range, setitem2, norm_index; simpl.
  eval_IZR. repeat f_equal; lra.
Qed.

(** ** Indexing and loops *)

Lemma norm_index_nat (len k : nat) :
  (k < len)%nat -> norm_index len (Z.of_nat k) = Some k.
Proof.
  intros Hk. unfold norm_index.
  replace (0 <=? Z.of_nat k)%Z with true by (symmetry; apply Z.leb_le; lia).
  replace (Z.of_nat k <? Z.of_nat len)%Z with true by (symmetry; apply Z.ltb_lt; lia).
  simpl. now rewrite Nat2Z.id.
Qed.

Lemma setitem2_nat (a : ndarray) (row : list R) (k c : nat) (v : R) :
  a !! k = Some row -> (c < length row)%nat ->
  setitem2 a (Z.of_nat k) (Z.of_nat c) v = Ok (<[k := <[c := v]> row]> a).
Proof.
  intros Hrow Hc. unfold setitem2.
  rewrite norm_index_nat by (apply lookup_lt_is_Some; eauto).
  rewrite Hrow. now rewrite norm_index_nat.
Qed.

(** The rule of the [for k in range(n)] loop: an invariant that holds
    before the loop and is carried by every iteration holds after it, and
    the loop raises nothing. *)
Lemma for_each_seq {S : Type} (P : nat -> S -> Prop) (body : Z -> S -> PyResult S)
    (len start : nat) (s : S) :
  P start s ->
  (forall k t, (start <= k < start + len)%nat -> P k t ->
     exists t', body (Z.of_nat k) t = Ok t' /\ P (Datatypes.S k) t') ->
  exists s', for_each (map Z.of_nat (seq start len)) body s = Ok s' /\ P (start + len)%nat s'.
Proof.
  revert start s. induction len as [|len IH]; intros start s H0 Hstep.
  - exists s. rewrite Nat.add_0_r. now split.
  - simpl. destruct (Hstep start s) as (t & Ht & HP); [lia | assumption |].
    rewrite Ht.
    destruct (IH (Datatypes.S start) t HP) as (s' & Hs' & HP').
    + intros k u Hk. apply Hstep. lia.
    + exists s'. split; [assumption |].
      now replace (start + Datatypes.S len)%nat with (Datatypes.S start + len)%nat by lia.
Qed.

Lemma for_each_range {S : Type} (P : nat -> S -> Prop) (body : Z -> S -> PyResult S)
    (n : nat) (s : S) :
  P 0%nat s ->
  (forall k t, (k < n)%nat -> P k t ->
     exists t', body (Z.of_nat k) t = Ok t' /\ P (Datatypes.S k) t') ->
  exists s', for_each (range (Z.of_nat n)) body s = Ok s' /\ P n s'.
Proof.
  intros H0 Hstep. unfold range. rewrite Nat2Z.id.
  apply (for_each_seq P body n 0 s H0).
  intros k t Hk. apply Hstep. lia.
Qed.

(** A flat index [i + j * w] with [i < w] determines [i] and [j]. *)
Lemma flat_index_inj (w i j i' j' : nat) :
  (i < w)%nat -> (i' < w)%nat -> (i + j * w = i' + j' * w)%nat -> i = i' /\ j = j'.
Proof.
  intros Hi Hi' E.
  assert (Hj : j = j').
  { assert (Hd : ((i + j * w) / w = (i' + j' * w) / w)%nat) by now rewrite E.
    rewrite !Nat.div_add in Hd by lia.
    rewrite !Nat.div_small in Hd by assumption. exact Hd. }
  subst j'. split; [lia | reflexivity].
Qed.

Lemma flat_index_lt (w h i j : nat) :
  (i < w)%nat -> (j < h)%nat -> (i + j * w < h * w)%nat.
Proof. intros Hi Hj. nia. Qed.

(** ** The circle pattern *)

Section CirclePattern.
Variables (d : R) (h w : nat).

Lemma pattern_inv_zeros :
  pattern_inv d h w 0 0 (replicate (h * w) [0; 0; 0]%R).
Proof.
  split; [apply length_replicate |].
  intros i j Hi Hj.
  replace (written 0 0 i j) with false.
  - apply lookup_replicate_2. now apply flat_index_lt.
  - unfold written.
    destruct (Nat.ltb_spec i 0), (Nat.eqb_spec i 0), (Nat.ltb_spec j 0);
      simpl; try reflexivity; lia.
Qed.

Lemma written_self (n m : nat) : written n m n m = false.
Proof.
  unfold written. rewrite !Nat.ltb_irrefl, Nat.eqb_refl. reflexivity.
Qed.

Lemma written_next (n m i j : nat) :
  (i, j) <> (n, m) -> written n (Datatypes.S m) i j = written n m i j.
Proof.
  intros Hne. unfold written.
  destruct (i <? n)%nat; [reflexivity |]. simpl.
  destruct (Nat.eqb_spec i n) as [-> | _]; [| reflexivity]. simpl.
  destruct (Nat.ltb_spec j (Datatypes.S m)), (Nat.ltb_spec j m);
    try reflexivity; try lia.
  exfalso. apply Hne. f_equal. lia.
Qed.

Lemma written_column (n i j : nat) :
  (j < h)%nat -> written (Datatypes.S n) 0 i j = written n h i j.
Proof.
  intros Hj. unfold written.
  destruct (Nat.ltb_spec i (Datatypes.S n)), (Nat.ltb_spec i n),
    (Nat.eqb_spec i n), (Nat.ltb_spec j h), (Nat.ltb_spec j 0);
    simpl; try reflexivity; lia.
Qed.

(** One iteration of the inner loop: the two assignments at
    [(n, m)]. *)
Lemma pattern_inner_step (n m : nat) (a : ndarray) :
  (n < w)%nat -> (m < h)%nat -> pattern_inv d h w n m a ->
  exists a',
    (let! circle_pattern := setitem2 a (Z.of_nat n + Z.of_nat m * Z.of_nat w) 0
       (d * IZR (Z.of_nat n) - d * IZR (Z.of_nat w - 1) / 2)%R in
     setitem2 circle_pattern (Z.of_nat n + Z.of_nat m * Z.of_nat w) 1
       (d * IZR (Z.of_nat m) - d * IZR (Z.of_nat h - 1) / 2)%R)%py = Ok a' /\
    pattern_inv d h w n (Datatypes.S m) a'.
Proof.
  intros Hn Hm [Hlen Hlook].
  pose proof (Hlook n m Hn Hm) as Hnm. rewrite written_self in Hnm.
  pose proof (flat_index_lt w h n m Hn Hm) as Hk.
  replace (Z.of_nat n + Z.of_nat m * Z.of_nat w)%Z with (Z.of_nat (n + m * w)) by lia.
  pose proof (fun row v H => setitem2_nat a row (n + m * w) 0 v H) as E0.
  pose proof (fun b row v H => setitem2_nat b row (n + m * w) 1 v H) as E1.
  change (Z.of_nat 0) with 0%Z in E0. change (Z.of_nat 1) with 1%Z in E1.
  rewrite (E0 _ _ Hnm) by (simpl; lia). simpl bindR.
  erewrite E1; [| apply list_lookup_insert_eq; lia | simpl; lia].
  eexists. split; [reflexivity |].
  rewrite list_insert_insert_eq. split.
  - now rewrite length_insert.
  - intros i j Hi Hj.
    destruct (decide ((i, j) = (n, m))) as [E | Hne].
    + injection E as -> ->.
      rewrite list_lookup_insert_eq by lia.
      unfold written. rewrite Nat.ltb_irrefl, Nat.eqb_refl.
      replace (m <? Datatypes.S m)%nat with true by (symmetry; apply Nat.ltb_lt; lia).
      reflexivity.
    + rewrite list_lookup_insert_ne.
      * rewrite written_next by assumption. now apply Hlook.
      * intros E. apply Hne.
        destruct (flat_index_inj w n m i j Hn Hi E) as [-> ->]. reflexivity.
Qed.

(** The pattern generation raises nothing and ends with every point
    written. *)
Lemma pattern_loops :
  exists a,
    estimation._calc_circle_pattern d (Z.of_nat h) (Z.of_nat w) = Ok a /\
    pattern_inv d h w w 0 a.
Proof.
  unfold estimation._calc_circle_pattern, np_zeros.
  replace (Z.of_nat h * Z.of_nat w <? 0)%Z with false by (symmetry; apply Z.ltb_ge; lia).
  simpl orb. cbv iota. simpl bindR.
  replace (Z.to_nat (Z.of_nat h * Z.of_nat w)) with (h * w)%nat by lia.
  change (replicate (Z.to_nat 3) 0%R) with [0; 0; 0]%R.
  apply (for_each_range (fun n a => pattern_inv d h w n 0 a)).
  - apply pattern_inv_zeros.
  - intros n a Hn Hinv.
    destruct (for_each_range (fun m a => pattern_inv d h w n m a)
                (fun j circle_pattern =>
                   (let! circle_pattern := setitem2 circle_pattern
                      (Z.of_nat n + j * Z.of_nat w) 0
                      (d * IZR (Z.of_nat n) - d * IZR (Z.of_nat w - 1) / 2)%R in
                    setitem2 circle_pattern (Z.of_nat n + j * Z.of_nat w) 1
                      (d * IZR j - d * IZR (Z.of_nat h - 1) / 2)%R)%py)
                h a Hinv) as (a' & Ha' & Hinv').
    + intros m t Hm Ht. now apply pattern_inner_step.
    + exists a'. split; [exact Ha' |].
      destruct Hinv' as [Hlen Hlook]. split; [assumption |].
      intros i j Hi Hj. rewrite written_column by assumption. now apply Hlook.
Qed.
End CirclePattern.

Section Grid.
Variables (d : R) (h w : nat).

Lemma grid_rows_lookup (start len i j : nat) :
  (i < w)%nat -> (j < len)%nat ->
  flat_map (fun j => map (fun i => pattern_point d h w i j) (seq 0 w)) (seq start len)
    !! (i + j * w)%nat = Some (pattern_point d h w i (start + j)).
Proof.
  revert start j. induction len as [|len IH]; intros start j Hi Hj; [lia |].
  simpl. destruct j as [|j].
  - rewrite lookup_app_l by (rewrite length_map, length_seq; lia).
    rewrite Nat.add_0_r, Nat.add_0_r.
    rewrite list_lookup_fmap, lookup_seq_lt by assumption. reflexivity.
  - rewrite lookup_app_r by (rewrite length_map, length_seq; lia).
    rewrite length_map, length_seq.
    replace (i + Datatypes.S j * w - w)%nat with (i + j * w)%nat by lia.
    rewrite IH by lia. f_equal. f_equal. lia.
Qed.

Lemma grid_rows_length (start len : nat) :
  length (flat_map (fun j => map (fun i => pattern_point d h w i j) (seq 0 w))
            (seq start len)) = (len * w)%nat.
Proof.
  revert start. induction len as [|len IH]; intros start; [reflexivity |].
  simpl. rewrite length_app, length_map, length_seq, IH. reflexivity.
Qed.

(** An array that satisfies the final invariant is the closed form. *)
Lemma pattern_inv_grid (a : ndarray) :
  pattern_inv d h w w 0 a -> a = grid d h w.
Proof.
  intros [Hlen Hlook]. apply list_eq. intros k.
  destruct (Nat.lt_ge_cases k (h * w)) as [Hk | Hk].
  - assert (Hw : (0 < w)%nat) by nia.
    pose proof (Nat.div_mod_eq k w) as Hdm.
    pose proof (Nat.mod_upper_bound k w ltac:(lia)) as Hmod.
    assert (Hdiv : (k / w < h)%nat) by (apply Nat.Div0.div_lt_upper_bound; lia).
    replace k with (k mod w + (k / w) * w)%nat by lia.
    rewrite (Hlook _ _ Hmod Hdiv).
    unfold grid. rewrite grid_rows_lookup by assumption.
    replace (written w 0 (k mod w) (k / w)) with true; [reflexivity |].
    unfold written. symmetry. apply orb_true_iff. left. now apply Nat.ltb_lt.
  - rewrite lookup_ge_None_2 by lia.
    symmetry. apply lookup_ge_None_2. unfold grid. rewrite grid_rows_length. lia.
Qed.





Lemma IZR_pred_nat (n : nat) : IZR (Z.of_nat n - 1) = (INR n - 1)%R.
Proof. now rewrite minus_IZR, <- INR_IZR_INZ. Qed.





End Grid.

(** The generated pattern is the closed form, for every number of rows
    and columns. *)
Lemma calc_circle_pattern_grid (d : R) (h w : nat) :
  estimation._calc_circle_pattern d (Z.of_nat h) (Z.of_nat w) = Ok (grid d h w).
Proof.
  destruct (pattern_loops d h w) as (a & Ha & Hinv).
  rewrite Ha. f_equal. now apply pattern_inv_grid.
Qed.

Lemma grid_length (d : R) (h w : nat) : length (grid d h w) = (h * w)%nat.
Proof. unfold grid. apply grid_rows_length. Qed.

(** Negative sizes: a negative product is rejected by [np.zeros]; two
    negative sizes give an array of zeros that no loop touches. *)
Example pattern_negative_rows (d : R) :
  estimation._calc_circle_pattern d (-1) 2 = Raise ValueError.
Proof. reflexivity. Qed.

Example pattern_both_negative (d : R) :
  estimation._calc_circle_pattern d (-1) (-2) = Ok [[0; 0; 0]; [0; 0; 0]]%R.
Proof. reflexivity. Qed.

(** C2. For all numbers of rows and columns and every spacing, pattern
    generation returns (without raising) exactly [rows * cols] points, and
    the point at flat index [i + j * cols], for a column [i < cols] and a
    row [j < rows], is
    [(spacing*i - spacing*(cols-1)/2, spacing*j - spacing*(rows-1)/2, 0)]. *)
Theorem C2_pattern_points (rows cols : nat) (spacing : R) :
  exists pts : ndarray,
    estimation._calc_circle_pattern spacing (Z.of_nat rows) (Z.of_nat cols) = Ok pts /\
    length pts = (rows * cols)%nat /\
    forall i j : nat, (i < cols)%nat -> (j < rows)%nat ->
      pts !! (i + j * cols)%nat =
      Some [spacing * INR i - spacing * (INR cols - 1) / 2;
            spacing * INR j - spacing * (INR rows - 1) / 2;
            0]%R.
Proof.
  destruct (pattern_loops spacing rows cols) as (a & Ha & Hlen & Hlook).
  exists a. split; [exact Ha |]. split; [exact Hlen |].
  intros i j Hi Hj. rewrite (Hlook i j Hi Hj).
  replace (written cols 0 i j) with true
    by (unfold written; symmetry; apply orb_true_iff; left; now apply Nat.ltb_lt).
  unfold pattern_point. now rewrite !IZR_pred_nat, <- !INR_IZR_INZ.
Qed.

Lemma C2_pattern_points_witness :
  exists pts : ndarray,
    estimation._calc_circle_pattern 0.0125 (Z.of_nat 3) (Z.of_nat 8) = Ok pts /\
    length pts = (3 * 8)%nat /\
    pts !! (2 + 1 * 8)%nat =
    Some [0.0125 * INR 2 - 0.0125 * (INR 8 - 1) / 2;
          0.0125 * INR 1 - 0.0125 * (INR 3 - 1) / 2; 0]%R.
Proof.
  destruct (C2_pattern_points 3 8 0.0125) as (pts & Hpts & Hlen & Hlook).
  exists pts. split; [exact Hpts |]. split; [exact Hlen |].
  apply Hlook; lia.
Defined.






(** ** Running [get_pose] *)

Section GetPose.
Context {cv2 : OpenCV}.
Import estimation.

Lemma get_pose_not_detected (obs : Image) (w : World PoseEstimator) (centers : ndarray) :
  findCirclesGrid obs (width (this w), height (this w)) CALIB_CB_SYMMETRIC_GRID
    (detector (this w)) = (false, centers) ->
  get_pose obs w =
  (Ok (false, None),
   mkWorld (this w)
     (calls w ++ [CallFindCirclesGrid obs (width (this w), height (this w))
                    CALIB_CB_SYMMETRIC_GRID (detector (this w))])).
Proof.
  intros Hdet.
  unfold get_pose, bind, get_this, cv2_findCirclesGrid, bind, log, ret. simpl.
  rewrite Hdet. reflexivity.
Qed.

Lemma get_pose_detected (obs : Image) (w : World PoseEstimator) (centers : ndarray)
    (success : bool) (r0 theta r2 t0 t1 t2 : R) :
  findCirclesGrid obs (width (this w), height (this w)) CALIB_CB_SYMMETRIC_GRID
    (detector (this w)) = (true, centers) ->
  solvePnP (circle_pattern (this w)) centers (camera_matrix (this w))
    (distortion_coefs (this w)) = Ok (success, [[r0]; [theta]; [r2]], [[t0]; [t1]; [t2]]) ->
  get_pose obs w =
  (Ok (true,
       Some ([t2 - target_distance (this w) * cos theta; 0;
              t0 + target_distance (this w) * sin theta]%R,
             (- rad2deg theta)%R)),
   mkWorld (this w)
     (calls w ++ [CallFindCirclesGrid obs (width (this w), height (this w))
                    CALIB_CB_SYMMETRIC_GRID (detector (this w))]
              ++ [CallSolvePnP (circle_pattern (this w)) centers
                    (camera_matrix (this w)) (distortion_coefs (this w))])).
Proof.
  intros Hdet Hsolve.
  unfold get_pose, bind, get_this, cv2_findCirclesGrid, cv2_solvePnP, bind, log,
    lift, ret, slice_all_0_all. simpl.
  rewrite Hdet. simpl. rewrite Hsolve. simpl.
  now rewrite <- app_assoc.
Qed.
End GetPose.

Section GetPoseClaims.
Context {cv2 : OpenCV}.
Import estimation.

(** C1. On a frame where the pattern is detected and the solver returns
    the rotation vector [(r0, theta, r2)] and the translation vector
    [(x_bumper, t1, y_bumper)], [get_pose] returns found with position
    [(y_bumper - D*cos theta, 0, x_bumper + D*sin theta)] and heading
    [-theta] in degrees, [D] the estimator's target distance; for
    theta = 0, D = 1, x_bumper = 0, y_bumper = 5 that is position
    [(4, 0, 0)] and heading 0. *)
Theorem C1_get_pose_target (obs : Image) (w : World PoseEstimator) (centers : ndarray)
    (success : bool) (r0 theta r2 x_bumper t1 y_bumper : R) :
  findCirclesGrid obs (width (this w), height (this w)) CALIB_CB_SYMMETRIC_GRID
    (detector (this w)) = (true, centers) ->
  solvePnP (circle_pattern (this w)) centers (camera_matrix (this w))
    (distortion_coefs (this w))
  = Ok (success, [[r0]; [theta]; [r2]], [[x_bumper]; [t1]; [y_bumper]]) ->
  let D := target_distance (this w) in
  fst (get_pose obs w)
  = Ok (true, Some ([y_bumper - D * cos theta; 0; x_bumper + D * sin theta]%R,
                    (- (theta * (180 / PI)))%R)) /\
  (theta = 0%R -> D = 1%R -> x_bumper = 0%R -> y_bumper = 5%R ->
   fst (get_pose obs w) = Ok (true, Some ([4; 0; 0]%R, 0%R))).
Proof.
  intros Hdet Hsolve D.
  rewrite (get_pose_detected obs w centers success r0 theta r2 x_bumper t1 y_bumper
             Hdet Hsolve).
  simpl. split; [reflexivity |].
  intros -> HD -> ->. fold D. rewrite HD, cos_0, sin_0.
  unfold rad2deg. repeat f_equal; lra.
Qed.

(** C5. On a frame where the detector reports no detection (whatever
    centers it returns, none included), [get_pose] raises nothing,
    returns found = false with no pose, leaves the estimator as it was
    and records the detector call only: the solver is not invoked. *)
Theorem C5_not_found_without_solver (obs : Image) (w : World PoseEstimator)
    (centers : ndarray) :
  findCirclesGrid obs (width (this w), height (this w)) CALIB_CB_SYMMETRIC_GRID
    (detector (this w)) = (false, centers) ->
  fst (get_pose obs w) = Ok (false, None) /\
  this (snd (get_pose obs w)) = this w /\
  calls (snd (get_pose obs w))
  = calls w ++ [CallFindCirclesGrid obs (width (this w), height (this w))
                  CALIB_CB_SYMMETRIC_GRID (detector (this w))] /\
  existsb is_solvePnP (drop (length (calls w)) (calls (snd (get_pose obs w)))) = false.
Proof.
  intros Hdet. rewrite (get_pose_not_detected obs w centers Hdet). simpl.
  repeat split. now rewrite drop_app_length.
Qed.

(** C4, as the code has it. On a frame where the pattern is detected
    and the solver returns its success flag false, together with a
    rotation and a translation vector, [get_pose] still returns found =
    true with the pose computed from the two vectors: the flag is not
    looked at, and the result is not the not-found result. *)
Theorem C4_success_flag_ignored (obs : Image) (w : World PoseEstimator)
    (centers : ndarray) (r0 theta r2 t0 t1 t2 : R) :
  findCirclesGrid obs (width (this w), height (this w)) CALIB_CB_SYMMETRIC_GRID
    (detector (this w)) = (true, centers) ->
  solvePnP (circle_pattern (this w)) centers (camera_matrix (this w))
    (distortion_coefs (this w))
  = Ok (false, [[r0]; [theta]; [r2]], [[t0]; [t1]; [t2]]) ->
  fst (get_pose obs w)
  = Ok (true, Some ([t2 - target_distance (this w) * cos theta; 0;
                     t0 + target_distance (this w) * sin theta]%R,
                    (- rad2deg theta)%R)) /\
  fst (get_pose obs w) <> Ok (false, None).
Proof.
  intros Hdet Hsolve.
  rewrite (get_pose_detected obs w centers false r0 theta r2 t0 t1 t2 Hdet Hsolve).
  simpl. split; [reflexivity | discriminate].
Qed.

(** C8. [get_pose] assigns no attribute: the estimator after the call
    is the estimator before it; and its result is the same whatever the
    value of [counter] and whatever calls were made before. *)
Theorem C8_get_pose_stateless (obs : Image) (w : World PoseEstimator) :
  this (snd (get_pose obs w)) = this w /\
  forall (c : Z) (history : list Call),
    fst (get_pose obs (mkWorld (set_counter c (this w)) history))
    = fst (get_pose obs w).
Proof.
  unfold get_pose, bind, get_this, cv2_findCirclesGrid, cv2_solvePnP, bind, log,
    lift, ret, slice_all_0_all. simpl.
  destruct (findCirclesGrid obs (width (this w), height (this w))
              CALIB_CB_SYMMETRIC_GRID (detector (this w))) as [[|] centers]; simpl.
  - destruct (solvePnP (circle_pattern (this w)) centers (camera_matrix (this w))
                (distortion_coefs (this w))) as [[[success rv] tv] | e]; simpl.
    + destruct (let! r := getitem rv 1 in getitem r 0)%py as [theta | e]; simpl;
        [| now split].
      destruct (let! r := getitem tv 0 in getitem r 0)%py as [x | e]; simpl;
        [| now split].
      destruct (let! r := getitem tv 2 in getitem r 0)%py as [y | e]; simpl;
        now split.
    + now split.
  - now split.
Qed.
End GetPoseClaims.

Lemma C1_get_pose_target_witness :
  fst (@estimation.get_pose (stub_cv2 true true 0 0 5) stub_image
         (mkWorld stub_estimator []))
  = Ok (true, Some ([4; 0; 0]%R, 0%R)).
Proof.
  refine (proj2 (@C1_get_pose_target (stub_cv2 true true 0 0 5) stub_image
                   (mkWorld stub_estimator []) [[0; 0]%R] true 0 0 0 0 0 5
                   eq_refl eq_refl) eq_refl eq_refl eq_refl eq_refl).
Defined.

Lemma C5_not_found_without_solver_witness :
  fst (@estimation.get_pose (stub_cv2 false true 0 0 5) stub_image
         (mkWorld stub_estimator []))
  = Ok (false, None).
Proof.
  exact (proj1 (@C5_not_found_without_solver (stub_cv2 false true 0 0 5) stub_image
                  (mkWorld stub_estimator []) [] eq_refl)).
Defined.

Lemma C4_success_flag_ignored_witness :
  fst (@estimation.get_pose (stub_cv2 true false 0 0 5) stub_image
         (mkWorld stub_estimator []))
  <> Ok (false, None).
Proof.
  exact (proj2 (@C4_success_flag_ignored (stub_cv2 true false 0 0 5) stub_image
                  (mkWorld stub_estimator []) [[0; 0]%R] 0 0 0 0 0 5 eq_refl eq_refl)).
Defined.

(** The claim C4 as stated fails: the solver reports failure and the
    pipeline answers found = true with a pose. *)
Lemma C4_solve_failure_counterexample :
  let cv2 := stub_cv2 true false 0 0 5 in
  let w := mkWorld stub_estimator [] in
  @findCirclesGrid cv2 stub_image (8, 3)%Z CALIB_CB_SYMMETRIC_GRID
    (SimpleBlobDetector_create 5 1) = (true, [[0; 0]%R]) /\
  @solvePnP cv2 (grid 0.0125 3 8) [[0; 0]%R] None None
  = Ok (false, [[0]; [0]; [0]], [[0]; [0]; [5]])%R /\
  fst (@estimation.get_pose cv2 stub_image w)
  = Ok (true, Some ([5 - 1 * cos 0; 0; 0 + 1 * sin 0]%R, (- rad2deg 0)%R)) /\
  fst (@estimation.get_pose cv2 stub_image w) <> Ok (false, None).
Proof.
  repeat split. discriminate.
Qed.

(** ** Construction and calibration profiles *)

Section Construction.
Context {cv2 : OpenCV}.
Import estimation.

Lemma initialize_camera_matrix_run (camera_mode : Z) (w : World PoseEstimator) :
  let after :=
    selected camera_mode (camera_matrix (this w), distortion_coefs (this w)) in
  initialize_camera_matrix camera_mode w
  = (Ok tt,
     mkWorld (set_distortion_coefs (snd after) (set_camera_matrix (fst after) (this w)))
       (calls w)).
Proof.
  destruct w as [self tr].
  unfold initialize_camera_matrix, selected.
  destruct (getOptimalNewCameraMatrix raw_camera_matrix nominal_distortion_coefs
              (640, 480)%Z 0) as [rectified roi].
  destruct self as [det dist h w pat D K dc c].
  repeat (match goal with
          | |- context [(camera_mode =? ?k)%Z] => destruct (camera_mode =? k)%Z
          end; [reflexivity |]).
  reflexivity.
Qed.

(** The constructor on a pattern of [rows] x [cols] points: it raises
    nothing, whatever the camera mode. *)
Lemma init_run (min_area min_dist_between_blobs : Z) (rows cols : nat)
    (circle_pattern_dist target_distance : R) (camera_mode : Z) :
  __init__ min_area min_dist_between_blobs (Z.of_nat rows) (Z.of_nat cols)
    circle_pattern_dist target_distance camera_mode
  = Ok (mkPoseEstimator (SimpleBlobDetector_create min_area min_dist_between_blobs)
          circle_pattern_dist (Z.of_nat rows) (Z.of_nat cols)
          (grid circle_pattern_dist rows cols) target_distance
          (fst (selected camera_mode (None, None)))
          (snd (selected camera_mode (None, None))) 0).
Proof.
  unfold __init__. rewrite calc_circle_pattern_grid. simpl bindR.
  rewrite initialize_camera_matrix_run. reflexivity.
Qed.

Lemma selected_invalid (camera_mode : Z) (before : option ndarray * option ndarray) :
  ~ (0 <= camera_mode <= 4)%Z -> selected camera_mode before = before.
Proof.
  intros Hmode. unfold selected.
  repeat (match goal with
          | |- context [(camera_mode =? ?k)%Z] =>
              destruct (Z.eqb_spec camera_mode k); [lia |]
          end).
  reflexivity.
Qed.

(** Once the pattern is detected the solver is called, with the
    estimator's calibration attributes as they are. *)
Lemma get_pose_detected_calls (obs : Image) (w : World PoseEstimator) (centers : ndarray) :
  findCirclesGrid obs (width (this w), height (this w)) CALIB_CB_SYMMETRIC_GRID
    (detector (this w)) = (true, centers) ->
  calls (snd (get_pose obs w))
  = calls w ++ [CallFindCirclesGrid obs (width (this w), height (this w))
                  CALIB_CB_SYMMETRIC_GRID (detector (this w));
                CallSolvePnP (circle_pattern (this w)) centers
                  (camera_matrix (this w)) (distortion_coefs (this w))] /\
  forall e : PyError,
    solvePnP (circle_pattern (this w)) centers (camera_matrix (this w))
      (distortion_coefs (this w)) = Raise e ->
    fst (get_pose obs w) = Raise e.
Proof.
  intros Hdet.
  unfold get_pose, bind, get_this, cv2_findCirclesGrid, cv2_solvePnP, bind, log,
    lift, ret, slice_all_0_all. simpl.
  rewrite Hdet. simpl. rewrite <- app_assoc. simpl.
  destruct (solvePnP (circle_pattern (this w)) centers (camera_matrix (this w))
              (distortion_coefs (this w))) as [[[success rv] tv] | e]; simpl.
  - split; [| discriminate].
    destruct (let! r := getitem rv 1 in getitem r 0)%py as [theta | e]; simpl;
      [| reflexivity].
    destruct (let! r := getitem tv 0 in getitem r 0)%py as [x | e]; simpl;
      [| reflexivity].
    destruct (let! r := getitem tv 2 in getitem r 0)%py as [y | e]; reflexivity.
  - split; [reflexivity |]. now intros e' [= ->].
Qed.

(** C3, as the code has it. For a profile id outside 0..4 the
    constructor raises nothing and returns an estimator whose camera
    matrix and distortion coefficients are unset ([None]).  The unset
    calibration reaches OpenCV per frame: on a frame without detection
    [get_pose] answers not-found; on a frame with detection it calls the
    solver with [None] for both, and raises whatever the solver
    raises. *)
Theorem C3_invalid_profile_unset (min_area min_dist_between_blobs : Z)
    (rows cols : nat) (circle_pattern_dist target_distance : R) (camera_mode : Z) :
  ~ (0 <= camera_mode <= 4)%Z ->
  exists est : PoseEstimator,
    __init__ min_area min_dist_between_blobs (Z.of_nat rows) (Z.of_nat cols)
      circle_pattern_dist target_distance camera_mode = Ok est /\
    camera_matrix est = None /\ distortion_coefs est = None /\
    (forall obs history centers,
       findCirclesGrid obs (width est, height est) CALIB_CB_SYMMETRIC_GRID
         (detector est) = (false, centers) ->
       fst (get_pose obs (mkWorld est history)) = Ok (false, None)) /\
    (forall obs history centers,
       findCirclesGrid obs (width est, height est) CALIB_CB_SYMMETRIC_GRID
         (detector est) = (true, centers) ->
       calls (snd (get_pose obs (mkWorld est history)))
       = history ++ [CallFindCirclesGrid obs (width est, height est)
                       CALIB_CB_SYMMETRIC_GRID (detector est);
                     CallSolvePnP (circle_pattern est) centers None None] /\
       forall e : PyError,
         solvePnP (circle_pattern est) centers None None = Raise e ->
         fst (get_pose obs (mkWorld est history)) = Raise e).
Proof.
  intros Hmode.
  pose proof (init_run min_area min_dist_between_blobs rows cols circle_pattern_dist
                target_distance camera_mode) as Hinit.
  rewrite (selected_invalid camera_mode (None, None) Hmode) in Hinit.
  change (fst (None, None)) with (@None ndarray) in Hinit.
  change (snd (None, None)) with (@None ndarray) in Hinit.
  match type of Hinit with _ = Ok ?e => exists e; set (est := e) in * end.
  split; [exact Hinit |]. split; [reflexivity |]. split; [reflexivity |]. split.
  - intros obs history centers Hdet.
    now rewrite (get_pose_not_detected obs (mkWorld est history) centers Hdet).
  - intros obs history centers Hdet.
    exact (get_pose_detected_calls obs (mkWorld est history) centers Hdet).
Qed.

(** The calibration profiles as the code assigns them: profiles 0 and 1
    get the matrix that OpenCV's [getOptimalNewCameraMatrix] returns for
    the raw matrix, the nominal coefficients, 640 x 480 and alpha 0;
    profiles 2 and 3 get the raw matrix; profiles 0 and 2 the zero
    distortion vector, profiles 1 and 3 the nominal coefficients, which
    are not zero.  Whether the matrix of profile 0 differs from that of
    profile 2 is decided by what OpenCV returns. *)
Lemma initialize_camera_matrix_profiles (w : World PoseEstimator) :
  let rectified :=
    fst (getOptimalNewCameraMatrix raw_camera_matrix nominal_distortion_coefs
           (640, 480)%Z 0) in
  let profile := fun k => this (snd (initialize_camera_matrix k w)) in
  camera_matrix (profile 0%Z) = Some rectified /\
  camera_matrix (profile 1%Z) = Some rectified /\
  camera_matrix (profile 2%Z) = Some raw_camera_matrix /\
  camera_matrix (profile 3%Z) = Some raw_camera_matrix /\
  distortion_coefs (profile 0%Z) = Some zero_distortion_coefs /\
  distortion_coefs (profile 2%Z) = Some zero_distortion_coefs /\
  distortion_coefs (profile 1%Z) = Some nominal_distortion_coefs /\
  distortion_coefs (profile 3%Z) = Some nominal_distortion_coefs /\
  zero_distortion_coefs = [[0; 0; 0; 0; 0]%R] /\
  nominal_distortion_coefs <> zero_distortion_coefs.
Proof.
  intros rectified profile. unfold profile, rectified.
  rewrite !initialize_camera_matrix_run. simpl.
  repeat split.
  intros E. apply (f_equal (fun a => a !! 0%nat)) in E. simpl in E.
  injection E as E _. lra.
Qed.
End Construction.

Lemma C3_invalid_profile_unset_witness :
  exists est : estimation.PoseEstimator,
    @estimation.__init__ (stub_cv2 true true 0 0 5) 5 1 (Z.of_nat 3) (Z.of_nat 8)
      0.0125 1 5 = Ok est /\
    estimation.camera_matrix est = None /\ estimation.distortion_coefs est = None.
Proof.
  destruct (@C3_invalid_profile_unset (stub_cv2 true true 0 0 5) 5 1 3 8 0.0125 1 5
              ltac:(lia)) as (est & Hest & HK & Hd & _).
  exists est. split; [exact Hest |]. split; [exact HK | exact Hd].
Defined.

(** The claim C3 as stated fails: with profile id 5 the constructor does
    not raise; it returns an estimator, with no calibration. *)
Lemma C3_configuration_error_counterexample :
  ~ raises (@estimation.__init__ (stub_cv2 true true 0 0 5) 5 1 3 8 0.0125 1 5) /\
  @estimation.__init__ (stub_cv2 true true 0 0 5) 5 1 3 8 0.0125 1 5
  = Ok (estimation.mkPoseEstimator (SimpleBlobDetector_create 5 1) 0.0125 3 8
          (grid 0.0125 3 8) 1 None None 0).
Proof.
  pose proof (@init_run (stub_cv2 true true 0 0 5) 5 1 3 8 0.0125 1 5) as H.
  change (Z.of_nat 3) with 3%Z in H. change (Z.of_nat 8) with 8%Z in H.
  rewrite H. split; [intros [] | reflexivity].
Qed.

(** ** The free function [get_pose] of [visual_servo_control.py] *)

Section Control.
Context {cv2 : OpenCV}.

Lemma control_pattern :
  visual_servo_control.calc_circle_pattern 3 8 = Ok (grid 0.0125 3 8).
Proof. exact (calc_circle_pattern_grid 0.0125 3 8). Qed.

(** One of the four solving branches, run to its end. *)
Lemma solve_branch_run (detection : bool) (centers K dist : ndarray) (w : World unit)
    (success : bool) (r0 theta r2 t0 t1 t2 : R) :
  solvePnP (grid 0.0125 3 8) centers (Some K) (Some dist)
  = Ok (success, [[r0]; [theta]; [r2]], [[t0]; [t1]; [t2]]) ->
  visual_servo_control.solve_branch detection centers K dist w
  = (Ok (detection, visual_servo_control.PoseList [t0; 0; t2]%R (rad2deg theta)),
     mkWorld (this w)
       (calls w ++ [CallSolvePnP (grid 0.0125 3 8) centers (Some K) (Some dist)])).
Proof.
  intros Hsolve.
  unfold visual_servo_control.solve_branch, bind, lift, cv2_solvePnP, bind, log,
    lift, ret, slice_all_0_all.
  rewrite control_pattern. simpl. rewrite Hsolve. reflexivity.
Qed.

(** The free function on a frame with detection and an option in
    0..3: it calls the solver with the calibration that
    [initialize_camera_matrix] selects for the same number. *)
Lemma control_get_pose_detected (obs : Image) (option : Z) (w : World unit)
    (centers K dist : ndarray) (success : bool) (r0 theta r2 t0 t1 t2 : R) :
  (0 <= option <= 3)%Z ->
  selected option (None, None) = (Some K, Some dist) ->
  findCirclesGrid obs (8, 3)%Z CALIB_CB_SYMMETRIC_GRID visual_servo_control.detector
  = (true, centers) ->
  solvePnP (grid 0.0125 3 8) centers (Some K) (Some dist)
  = Ok (success, [[r0]; [theta]; [r2]], [[t0]; [t1]; [t2]]) ->
  visual_servo_control.get_pose obs option w
  = (Ok (true, visual_servo_control.PoseList [t0; 0; t2]%R (rad2deg theta)),
     mkWorld (this w)
       (calls w ++ [CallFindCirclesGrid obs (8, 3)%Z CALIB_CB_SYMMETRIC_GRID
                      visual_servo_control.detector;
                    CallSolvePnP (grid 0.0125 3 8) centers (Some K) (Some dist)])).
Proof.
  intros Hopt Hsel Hdet Hsolve.
  unfold visual_servo_control.get_pose. unfold selected in Hsel.
  destruct (getOptimalNewCameraMatrix estimation.raw_camera_matrix
              estimation.nominal_distortion_coefs (640, 480)%Z 0) as [rectified roi].
  unfold bind at 1. unfold cv2_findCirclesGrid, bind, log, ret. simpl.
  rewrite Hdet. simpl.
  assert (Hcases : option = 0%Z \/ option = 1%Z \/ option = 2%Z \/ option = 3%Z) by lia.
  destruct Hcases as [-> | [-> | [-> | ->]]]; simpl in Hsel |- *;
    injection Hsel as <- <-;
    (erewrite solve_branch_run by exact Hsolve);
    simpl; now rewrite <- app_assoc.
Qed.

Lemma control_get_pose_other (obs : Image) (option : Z) (w : World unit)
    (centers : ndarray) :
  ~ (0 <= option <= 3)%Z ->
  findCirclesGrid obs (8, 3)%Z CALIB_CB_SYMMETRIC_GRID visual_servo_control.detector
  = (true, centers) ->
  visual_servo_control.get_pose obs option w
  = (Ok (true, visual_servo_control.EmptyArray),
     mkWorld (this w)
       (calls w ++ [CallFindCirclesGrid obs (8, 3)%Z CALIB_CB_SYMMETRIC_GRID
                      visual_servo_control.detector])).
Proof.
  intros Hopt Hdet.
  unfold visual_servo_control.get_pose.
  destruct (getOptimalNewCameraMatrix estimation.raw_camera_matrix
              estimation.nominal_distortion_coefs (640, 480)%Z 0) as [rectified roi].
  unfold bind at 1. unfold cv2_findCirclesGrid, bind, log, ret. simpl.
  rewrite Hdet. simpl.
  repeat (match goal with
          | |- context [(option =? ?k)%Z] =>
              destruct (Z.eqb_spec option k); [lia |]
          end).
  reflexivity.
Qed.
End Control.

Lemma selected_valid {cv2 : OpenCV} (mode : Z) (before : option ndarray * option ndarray) :
  (0 <= mode <= 3)%Z ->
  exists K dist : ndarray, selected mode before = (Some K, Some dist).
Proof.
  intros Hmode.
  assert (Hcases : mode = 0%Z \/ mode = 1%Z \/ mode = 2%Z \/ mode = 3%Z) by lia.
  destruct Hcases as [-> | [-> | [-> | ->]]]; unfold selected; simpl; eauto.
Qed.

Lemma rad2deg_sign (theta : R) : theta <> 0%R -> (- rad2deg theta)%R <> rad2deg theta.
Proof.
  intros Htheta E. unfold rad2deg in E.
  pose proof (Rinv_0_lt_compat PI PI_RGT_0) as Hinv.
  assert (Hz : (theta * (180 / PI))%R = 0%R) by lra.
  apply Rmult_integral in Hz. destruct Hz as [Hz | Hz]; [contradiction |].
  unfold Rdiv in Hz. nra.
Qed.

(** C9. Take the estimator of the class built for the pattern and the
    detector of the free function (3 x 8 points 0.0125 apart, minArea 5,
    minDistBetweenBlobs 1) with a camera mode in 0..3, and the free
    function called with the same number.  On a frame where the pattern
    is detected both make the same two OpenCV calls, so the solver's
    answer [(r0, theta, r2)], [(t0, t1, t2)] is the same for both; the
    class returns position [(t2 - D*cos theta, 0, t0 + D*sin theta)] and
    heading [-rad2deg theta], the free function position [(t0, 0, t2)] and
    heading [+rad2deg theta]; the headings differ whenever theta is not
    zero.  And there is a frame on which the two results differ. *)
Theorem C9_implementations_diverge :
  (forall (cv2 : OpenCV) (obs : Image) (option : Z) (D : R)
          (est : estimation.PoseEstimator) (centers : ndarray) (success : bool)
          (r0 theta r2 t0 t1 t2 : R),
     (0 <= option <= 3)%Z ->
     estimation.__init__ 5 1 3 8 0.0125 D option = Ok est ->
     findCirclesGrid obs (8, 3)%Z CALIB_CB_SYMMETRIC_GRID (SimpleBlobDetector_create 5 1)
     = (true, centers) ->
     solvePnP (estimation.circle_pattern est) centers (estimation.camera_matrix est)
       (estimation.distortion_coefs est)
     = Ok (success, [[r0]; [theta]; [r2]], [[t0]; [t1]; [t2]]) ->
     let by_class := estimation.get_pose obs (mkWorld est []) in
     let by_function := visual_servo_control.get_pose obs option (mkWorld tt []) in
     calls (snd by_class) = calls (snd by_function) /\
     fst by_class
     = Ok (true, Some ([t2 - D * cos theta; 0; t0 + D * sin theta]%R,
                       (- rad2deg theta)%R)) /\
     fst by_function
     = Ok (true, visual_servo_control.PoseList [t0; 0; t2]%R (rad2deg theta)) /\
     (theta <> 0%R -> (- rad2deg theta)%R <> rad2deg theta)) /\
  (exists (cv2 : OpenCV) (obs : Image) (option : Z) (est : estimation.PoseEstimator)
          (p : list R * R) (q : visual_servo_control.Payload),
     estimation.__init__ 5 1 3 8 0.0125 1 option = Ok est /\
     fst (estimation.get_pose obs (mkWorld est [])) = Ok (true, Some p) /\
     fst (visual_servo_control.get_pose obs option (mkWorld tt [])) = Ok (true, q) /\
     visual_servo_control.pose_of q <> Some p).
Proof.
  assert (Hall : forall (cv2 : OpenCV) (obs : Image) (option : Z) (D : R)
          (est : estimation.PoseEstimator) (centers : ndarray) (success : bool)
          (r0 theta r2 t0 t1 t2 : R),
     (0 <= option <= 3)%Z ->
     estimation.__init__ 5 1 3 8 0.0125 D option = Ok est ->
     findCirclesGrid obs (8, 3)%Z CALIB_CB_SYMMETRIC_GRID (SimpleBlobDetector_create 5 1)
     = (true, centers) ->
     solvePnP (estimation.circle_pattern est) centers (estimation.camera_matrix est)
       (estimation.distortion_coefs est)
     = Ok (success, [[r0]; [theta]; [r2]], [[t0]; [t1]; [t2]]) ->
     calls (snd (estimation.get_pose obs (mkWorld est [])))
     = calls (snd (visual_servo_control.get_pose obs option (mkWorld tt []))) /\
     fst (estimation.get_pose obs (mkWorld est []))
     = Ok (true, Some ([t2 - D * cos theta; 0; t0 + D * sin theta]%R,
                       (- rad2deg theta)%R)) /\
     fst (visual_servo_control.get_pose obs option (mkWorld tt []))
     = Ok (true, visual_servo_control.PoseList [t0; 0; t2]%R (rad2deg theta)) /\
     (theta <> 0%R -> (- rad2deg theta)%R <> rad2deg theta)).
  { intros cv2 obs option D est centers success r0 theta r2 t0 t1 t2
      Hopt Hinit Hdet Hsolve.
    pose proof (@init_run cv2 5 1 3 8 0.0125 D option) as Hrun.
    change (Z.of_nat 3) with 3%Z in Hrun. change (Z.of_nat 8) with 8%Z in Hrun.
    rewrite Hinit in Hrun. injection Hrun as ->.
    destruct (selected_valid option (None, None) Hopt) as (K & dist & Hsel).
    rewrite Hsel in *.
    change (fst (Some K, Some dist)) with (Some K) in *.
    change (snd (Some K, Some dist)) with (Some dist) in *.
    set (est := estimation.mkPoseEstimator _ _ _ _ _ _ _ _ _) in *.
    rewrite (get_pose_detected obs (mkWorld est []) centers success r0 theta r2 t0 t1 t2
               Hdet Hsolve).
    rewrite (control_get_pose_detected obs option (mkWorld tt []) centers K dist
               success r0 theta r2 t0 t1 t2 Hopt Hsel Hdet Hsolve).
    simpl. repeat split. apply rad2deg_sign. }
  split; [exact Hall |].
  exists (stub_cv2 true true 1 0 5), stub_image, 0%Z.
  pose proof (@init_run (stub_cv2 true true 1 0 5) 5 1 3 8 0.0125 1 0) as Hrun.
  change (Z.of_nat 3) with 3%Z in Hrun. change (Z.of_nat 8) with 8%Z in Hrun.
  eexists. eexists. eexists. split; [exact Hrun |].
  destruct (Hall (stub_cv2 true true 1 0 5) stub_image 0%Z 1%R _ [[0; 0]%R] true
              0%R 1%R 0%R 0%R 0%R 5%R ltac:(lia) Hrun eq_refl eq_refl)
    as (_ & Hc & Hf & Hsign).
  split; [exact Hc |]. split; [exact Hf |].
  intros E.
  apply (f_equal (fun o : option (list R * R) =>
                    match o with Some (_, heading) => heading | None => 0%R end)) in E.
  simpl in E. apply Hsign; [lra | now symmetry].
Qed.

Lemma C9_implementations_diverge_witness :
  let cv2 := stub_cv2 true true 1 0 5 in
  let est :=
    estimation.mkPoseEstimator (SimpleBlobDetector_create 5 1) 0.0125 3 8
      (grid 0.0125 3 8) 1 (Some estimation.alternate_camera_matrix)
      (Some estimation.zero_distortion_coefs) 0 in
  @estimation.__init__ cv2 5 1 3 8 0.0125 1 0 = Ok est /\
  fst (@estimation.get_pose cv2 stub_image (mkWorld est []))
  = Ok (true, Some ([5 - 1 * cos 1; 0; 0 + 1 * sin 1]%R, (- rad2deg 1)%R)) /\
  fst (@visual_servo_control.get_pose cv2 stub_image 0 (mkWorld tt []))
  = Ok (true, visual_servo_control.PoseList [0; 0; 5]%R (rad2deg 1)).
Proof.
  intros cv2 est.
  assert (Hest : @estimation.__init__ cv2 5 1 3 8 0.0125 1 0 = Ok est)
    by exact (@init_run cv2 5 1 3 8 0.0125 1 0).
  split; [exact Hest |].
  destruct (proj1 C9_implementations_diverge cv2 stub_image 0%Z 1%R est [[0; 0]%R] true
              0%R 1%R 0%R 0%R 0%R 5%R ltac:(lia) Hest eq_refl eq_refl)
    as (_ & Hc & Hf & _).
  split; [exact Hc | exact Hf].
Defined.

Section ControlClaims.
Context {cv2 : OpenCV}.

(** C10. In the free function, on a frame where the detector reports
    detection, an option outside 0..3 gives [(True, np.array([]))]: found
    is true, the payload carries no pose and has length 0, not the 24
    points of the pattern, and the solver is not called.  Option 4 is
    such an option, although the class accepts camera mode 4 and selects
    the alternate calibration for it. *)
Theorem C10_unknown_option_found_empty (obs : Image) (option : Z) (w : World unit)
    (centers : ndarray) :
  findCirclesGrid obs (8, 3)%Z CALIB_CB_SYMMETRIC_GRID visual_servo_control.detector
  = (true, centers) ->
  ~ (0 <= option <= 3)%Z ->
  (fst (visual_servo_control.get_pose obs option w)
   = Ok (true, visual_servo_control.EmptyArray) /\
   visual_servo_control.pose_of visual_servo_control.EmptyArray = None /\
   visual_servo_control.payload_len visual_servo_control.EmptyArray = 0%nat /\
   visual_servo_control.payload_len visual_servo_control.EmptyArray <> (3 * 8)%nat /\
   existsb is_solvePnP
     (drop (length (calls w)) (calls (snd (visual_servo_control.get_pose obs option w))))
   = false) /\
  (fst (visual_servo_control.get_pose obs 4 w)
   = Ok (true, visual_servo_control.EmptyArray) /\
   forall D : R, exists est : estimation.PoseEstimator,
     estimation.__init__ 5 1 3 8 0.0125 D 4 = Ok est /\
     estimation.camera_matrix est = Some estimation.alternate_camera_matrix /\
     estimation.distortion_coefs est = Some estimation.alternate_distortion_coefs).
Proof.
  intros Hdet Hopt. split.
  - rewrite (control_get_pose_other obs option w centers Hopt Hdet). simpl.
    repeat split; try discriminate. now rewrite drop_app_length.
  - rewrite (control_get_pose_other obs 4 w centers ltac:(lia) Hdet). simpl.
    split; [reflexivity |]. intros D.
    pose proof (init_run 5 1 3 8 0.0125 D 4) as Hrun.
    change (Z.of_nat 3) with 3%Z in Hrun. change (Z.of_nat 8) with 8%Z in Hrun.
    eexists. split; [exact Hrun |]. split; reflexivity.
Qed.
End ControlClaims.

Lemma C10_unknown_option_found_empty_witness :
  fst (@visual_servo_control.get_pose (stub_cv2 true true 0 0 5) stub_image 4
         (mkWorld tt []))
  = Ok (true, visual_servo_control.EmptyArray).
Proof.
  exact (proj1 (proj1 (@C10_unknown_option_found_empty (stub_cv2 true true 0 0 5)
                         stub_image 4 (mkWorld tt []) [[0; 0]%R] eq_refl ltac:(lia)))).
Defined.

(** * Further properties of the pattern *)

Lemma for_each_unchanged {S X : Type} (xs : list X) (body : X -> S -> PyResult S) (s : S) :
  (forall x t, body x t = Ok t) -> for_each xs body s = Ok s.
Proof.
  intros Hbody. induction xs as [|x xs IH]; [reflexivity |].
  simpl. now rewrite Hbody.
Qed.

Lemma range_nonpositive (n : Z) : (n <= 0)%Z -> range n = [].
Proof.
  intros Hn. unfold range. now replace (Z.to_nat n) with 0%nat by lia.
Qed.

(** With a size that is zero or negative no loop body runs: the array of
    zeros is returned as [np.zeros] made it. *)
Lemma calc_circle_pattern_untouched (d : R) (h w : Z) :
  (0 <= h * w)%Z -> (h <= 0 \/ w <= 0)%Z ->
  estimation._calc_circle_pattern d h w
  = Ok (replicate (Z.to_nat (h * w)) [0; 0; 0]%R).
Proof.
  intros Hprod Hsize. unfold estimation._calc_circle_pattern, np_zeros.
  replace (h * w <? 0)%Z with false by (symmetry; apply Z.ltb_ge; lia).
  simpl orb. cbv iota. simpl bindR.
  change (replicate (Z.to_nat 3) 0%R) with [0; 0; 0]%R.
  destruct (Z_le_gt_dec w 0) as [Hw | Hw].
  - now rewrite (range_nonpositive w Hw).
  - assert (Hh : (h <= 0)%Z) by lia.
    rewrite (range_nonpositive h Hh). now apply for_each_unchanged.
Qed.

(** The three cases of the pattern generation over the integers. *)
Lemma calc_circle_pattern_cases (d : R) (h w : Z) :
  ((h * w < 0)%Z /\ estimation._calc_circle_pattern d h w = Raise ValueError) \/
  ((0 <= h * w)%Z /\ (h <= 0 \/ w <= 0)%Z /\
   estimation._calc_circle_pattern d h w = Ok (replicate (Z.to_nat (h * w)) [0; 0; 0]%R)) \/
  ((0 < h)%Z /\ (0 < w)%Z /\
   estimation._calc_circle_pattern d h w = Ok (grid d (Z.to_nat h) (Z.to_nat w))).
Proof.
  destruct (Z_lt_ge_dec (h * w) 0) as [Hneg | Hpos].
  - left. split; [assumption |].
    unfold estimation._calc_circle_pattern, np_zeros.
    now replace (h * w <? 0)%Z with true by (symmetry; apply Z.ltb_lt; lia).
  - right. destruct (Z_le_gt_dec h 0) as [Hh | Hh].
    + left. split; [lia |]. split; [now left |].
      apply calc_circle_pattern_untouched; [lia | now left].
    + destruct (Z_le_gt_dec w 0) as [Hw | Hw].
      * left. split; [lia |]. split; [now right |].
        apply calc_circle_pattern_untouched; [lia | now right].
      * right. split; [lia |]. split; [lia |].
        rewrite <- (calc_circle_pattern_grid d (Z.to_nat h) (Z.to_nat w)).
        now rewrite !Z2Nat.id by lia.
Qed.

(** Every row of the closed form is a point of the pattern. *)
Lemma grid_lookup_inv (d : R) (h w k : nat) (row : list R) :
  grid d h w !! k = Some row ->
  exists i j : nat,
    (i < w)%nat /\ (j < h)%nat /\ k = (i + j * w)%nat /\ row = pattern_point d h w i j.
Proof.
  intros Hrow.
  assert (Hk : (k < h * w)%nat).
  { rewrite <- (grid_length d h w). apply lookup_lt_is_Some. eauto. }
  assert (Hw : (0 < w)%nat) by nia.
  pose proof (Nat.div_mod_eq k w) as Hdm.
  pose proof (Nat.mod_upper_bound k w ltac:(lia)) as Hmod.
  assert (Hdiv : (k / w < h)%nat) by (apply Nat.Div0.div_lt_upper_bound; lia).
  exists (k mod w)%nat, (k / w)%nat.
  split; [assumption |]. split; [assumption |]. split; [lia |].
  assert (E : k = (k mod w + k / w * w)%nat) by lia.
  rewrite E in Hrow. unfold grid in Hrow.
  rewrite (grid_rows_lookup d h w 0 h _ _ Hmod Hdiv) in Hrow.
  now injection Hrow as <-.
Qed.

(** X1. Whenever [height * width] is negative pattern generation raises
    [ValueError] (from [np.zeros]) before any point is computed; and every
    array it returns has [height * width] rows of three columns with third
    column zero. *)
Theorem X1_pattern_negative_product_raises (d : R) (h w : Z) :
  ((h * w < 0)%Z -> estimation._calc_circle_pattern d h w = Raise ValueError) /\
  (forall a : ndarray,
     estimation._calc_circle_pattern d h w = Ok a ->
     length a = Z.to_nat (h * w) /\
     (forall (k : nat) (row : list R),
        a !! k = Some row -> length row = 3%nat /\ row !! 2%nat = Some 0%R)).
Proof.
  destruct (calc_circle_pattern_cases d h w)
    as [[Hneg E] | [(Hpos & Hsize & E) | (Hh & Hw & E)]]; rewrite E.
  - split; [reflexivity | discriminate].
  - split; [lia |].
    intros a [= <-]. split; [apply length_replicate |].
    intros k row Hrow. apply lookup_replicate in Hrow as [-> _]. now split.
  - split; [lia |].
    intros a [= <-]. split; [rewrite grid_length; lia |].
    intros k row Hrow.
    destruct (grid_lookup_inv d _ _ k row Hrow) as (i & j & _ & _ & _ & ->).
    now split.
Qed.



(** * Further properties of the constructor and the calibration *)

Section CalibrationExtras.
Context {cv2 : OpenCV}.
Import estimation.

Lemma selected_valid_overrides (mode : Z) (b1 b2 : option ndarray * option ndarray) :
  (0 <= mode <= 4)%Z -> selected mode b1 = selected mode b2.
Proof.
  intros Hmode.
  assert (Hcases : mode = 0%Z \/ mode = 1%Z \/ mode = 2%Z \/ mode = 3%Z \/ mode = 4%Z)
    by lia.
  destruct Hcases as [-> | [-> | [-> | [-> | ->]]]]; reflexivity.
Qed.

(** X7. [initialize_camera_matrix] raises nothing for any camera mode,
    makes no per-frame OpenCV call, and assigns at most the camera matrix
    and the distortion coefficients: the other seven attributes are as
    they were. *)
Theorem X7_initialize_touches_calibration_only (camera_mode : Z)
    (w : World PoseEstimator) :
  let after := initialize_camera_matrix camera_mode w in
  fst after = Ok tt /\
  calls (snd after) = calls w /\
  detector (this (snd after)) = detector (this w) /\
  circle_pattern_dist (this (snd after)) = circle_pattern_dist (this w) /\
  height (this (snd after)) = height (this w) /\
  width (this (snd after)) = width (this w) /\
  circle_pattern (this (snd after)) = circle_pattern (this w) /\
  target_distance (this (snd after)) = target_distance (this w) /\
  counter (this (snd after)) = counter (this w).
Proof.
  intros after. unfold after. rewrite initialize_camera_matrix_run. simpl.
  repeat split.
Qed.

(** X8. With a camera mode outside 0..4 [initialize_camera_matrix]
    leaves the object exactly as it was: a calibration assigned earlier
    stays in place. *)
Theorem X8_initialize_invalid_mode_keeps_object (camera_mode : Z)
    (w : World PoseEstimator) :
  ~ (0 <= camera_mode <= 4)%Z ->
  initialize_camera_matrix camera_mode w = (Ok tt, w).
Proof.
  intros Hmode. rewrite initialize_camera_matrix_run.
  rewrite (selected_invalid camera_mode _ Hmode).
  destruct w as [[det dist h wd pat D K dc c] tr]. reflexivity.
Qed.

(** X9. With a camera mode in 0..4 [initialize_camera_matrix] overwrites
    whatever calibration was there: run after another initialisation it
    gives the same object as run alone. *)
Theorem X9_initialize_valid_mode_overrides (first_mode camera_mode : Z)
    (w : World PoseEstimator) :
  (0 <= camera_mode <= 4)%Z ->
  initialize_camera_matrix camera_mode (snd (initialize_camera_matrix first_mode w))
  = initialize_camera_matrix camera_mode w.
Proof.
  intros Hmode. rewrite !initialize_camera_matrix_run. simpl.
  rewrite (selected_valid_overrides camera_mode _
             (camera_matrix (this w), distortion_coefs (this w)) Hmode).
  destruct w as [[det dist h wd pat D K dc c] tr]. reflexivity.
Qed.

(** The constructor over all integer sizes. *)
Lemma init_cases (min_area min_dist_between_blobs height width : Z)
    (circle_pattern_dist target_distance : R) (camera_mode : Z) :
  ((height * width < 0)%Z /\
   __init__ min_area min_dist_between_blobs height width circle_pattern_dist
     target_distance camera_mode = Raise ValueError) \/
  ((0 <= height * width)%Z /\
   exists pattern : ndarray,
     _calc_circle_pattern circle_pattern_dist height width = Ok pattern /\
     __init__ min_area min_dist_between_blobs height width circle_pattern_dist
       target_distance camera_mode
     = Ok (mkPoseEstimator (SimpleBlobDetector_create min_area min_dist_between_blobs)
             circle_pattern_dist height width pattern target_distance
             (fst (selected camera_mode (None, None)))
             (snd (selected camera_mode (None, None))) 0)).
Proof.
  unfold __init__.
  destruct (calc_circle_pattern_cases circle_pattern_dist height width)
    as [[Hneg E] | [(Hpos & Hsize & E) | (Hh & Hw & E)]]; rewrite E; simpl bindR.
  - left. now split.
  - right. split; [assumption |]. eexists. split; [reflexivity |].
    now rewrite initialize_camera_matrix_run.
  - right. split; [lia |]. eexists. split; [reflexivity |].
    now rewrite initialize_camera_matrix_run.
Qed.

(** X10. Whenever [height * width] is negative the constructor raises
    [ValueError], whatever the camera mode and the other arguments; and
    an estimator it returns holds the detector parameters, sizes and
    distances it was given, the generated pattern and a counter of 0. *)
Theorem X10_init_negative_product_raises
    (min_area min_dist_between_blobs height width : Z)
    (circle_pattern_dist target_distance : R) (camera_mode : Z) :
  let built :=
    __init__ min_area min_dist_between_blobs height width circle_pattern_dist
      target_distance camera_mode in
  ((height * width < 0)%Z -> built = Raise ValueError) /\
  (forall est : PoseEstimator, built = Ok est ->
     detector est = SimpleBlobDetector_create min_area min_dist_between_blobs /\
     estimation.height est = height /\ estimation.width est = width /\
     estimation.circle_pattern_dist est = circle_pattern_dist /\
     estimation.target_distance est = target_distance /\
     _calc_circle_pattern circle_pattern_dist height width = Ok (circle_pattern est) /\
     counter est = 0%Z).
Proof.
  intros built. unfold built.
  destruct (init_cases min_area min_dist_between_blobs height width circle_pattern_dist
              target_distance camera_mode)
    as [[Hneg E] | (Hpos & pattern & Hpat & E)]; rewrite E.
  - split; [reflexivity | discriminate].
  - split; [lia |].
    intros est [= <-]. simpl. repeat split. exact Hpat.
Qed.
End CalibrationExtras.

Lemma X8_initialize_invalid_mode_keeps_object_witness :
  let cv2 := stub_cv2 true true 0 0 5 in
  let calibrated := snd (@estimation.initialize_camera_matrix cv2 4
                           (mkWorld stub_estimator [])) in
  @estimation.initialize_camera_matrix cv2 7 calibrated = (Ok tt, calibrated) /\
  estimation.camera_matrix (this calibrated) = Some estimation.alternate_camera_matrix.
Proof.
  intros cv2 calibrated. split.
  - apply (@X8_initialize_invalid_mode_keeps_object cv2 7 calibrated). lia.
  - reflexivity.
Defined.

Lemma X9_initialize_valid_mode_overrides_witness :
  let cv2 := stub_cv2 true true 0 0 5 in
  @estimation.initialize_camera_matrix cv2 2
    (snd (@estimation.initialize_camera_matrix cv2 4 (mkWorld stub_estimator [])))
  = @estimation.initialize_camera_matrix cv2 2 (mkWorld stub_estimator []).
Proof.
  intros cv2.
  apply (@X9_initialize_valid_mode_overrides cv2 4 2 (mkWorld stub_estimator [])). lia.
Defined.

(** * Further properties of [get_pose] *)

Section GetPoseExtras.
Context {cv2 : OpenCV}.
Import estimation.

(** X11. In every call [get_pose] asks the detector once, first, for a
    pattern of [(width, height)] (columns first), and asks the solver once
    more exactly when the detector reported a detection, with the stored
    pattern, the detected centers and the stored calibration; it makes no
    other OpenCV call, whether it returns or raises. *)
Theorem X11_get_pose_opencv_calls (obs : Image) (w : World PoseEstimator) :
  let self := this w in
  let found :=
    findCirclesGrid obs (width self, height self) CALIB_CB_SYMMETRIC_GRID (detector self) in
  calls (snd (get_pose obs w))
  = calls w
    ++ CallFindCirclesGrid obs (width self, height self) CALIB_CB_SYMMETRIC_GRID
         (detector self)
    :: (if fst found
        then [CallSolvePnP (circle_pattern self) (snd found) (camera_matrix self)
                (distortion_coefs self)]
        else []).
Proof.
  intros self found. subst self found.
  destruct (findCirclesGrid obs (width (this w), height (this w)) CALIB_CB_SYMMETRIC_GRID
              (detector (this w))) as [[|] centers] eqn:Hdet; simpl.
  - exact (proj1 (get_pose_detected_calls obs w centers Hdet)).
  - now rewrite (get_pose_not_detected obs w centers Hdet).
Qed.

(** X12. An exception raised by the solver comes out of [get_pose]
    unchanged, and the estimator is left as it was. *)
Theorem X12_get_pose_solver_exception (obs : Image) (w : World PoseEstimator)
    (centers : ndarray) (e : PyError) :
  findCirclesGrid obs (width (this w), height (this w)) CALIB_CB_SYMMETRIC_GRID
    (detector (this w)) = (true, centers) ->
  solvePnP (circle_pattern (this w)) centers (camera_matrix (this w))
    (distortion_coefs (this w)) = Raise e ->
  fst (get_pose obs w) = Raise e /\ this (snd (get_pose obs w)) = this w.
Proof.
  intros Hdet Hsolve. split.
  - exact (proj2 (get_pose_detected_calls obs w centers Hdet) e Hsolve).
  - unfold get_pose, bind, get_this, cv2_findCirclesGrid, cv2_solvePnP, bind, log,
      lift, ret, slice_all_0_all. simpl.
    rewrite Hdet. simpl. rewrite Hsolve. reflexivity.
Qed.

End GetPoseExtras.

Lemma X12_get_pose_solver_exception_witness :
  fst (@estimation.get_pose raising_cv2 stub_image (mkWorld stub_estimator []))
  = Raise Cv2Error /\
  this (snd (@estimation.get_pose raising_cv2 stub_image (mkWorld stub_estimator [])))
  = stub_estimator.
Proof.
  exact (@X12_get_pose_solver_exception raising_cv2 stub_image (mkWorld stub_estimator [])
           [[0; 0]%R] Cv2Error eq_refl eq_refl).
Defined.

(** * Further properties of the free function [get_pose] *)

Section ControlExtras.
Context {cv2 : OpenCV}.

Lemma control_get_pose_not_detected (obs : Image) (option : Z) (w : World unit)
    (centers : ndarray) :
  findCirclesGrid obs (8, 3)%Z CALIB_CB_SYMMETRIC_GRID visual_servo_control.detector
  = (false, centers) ->
  visual_servo_control.get_pose obs option w
  = (Ok (false, visual_servo_control.EmptyArray),
     mkWorld (this w)
       (calls w ++ [CallFindCirclesGrid obs (8, 3)%Z CALIB_CB_SYMMETRIC_GRID
                      visual_servo_control.detector])).
Proof.
  intros Hdet. unfold visual_servo_control.get_pose.
  destruct (getOptimalNewCameraMatrix estimation.raw_camera_matrix
              estimation.nominal_distortion_coefs (640, 480)%Z 0) as [rectified roi].
  unfold bind at 1. unfold cv2_findCirclesGrid, bind, log, ret. simpl.
  rewrite Hdet. reflexivity.
Qed.

(** X14. On a frame where the detector reports no detection the free
    function returns [(False, np.array([]))] for every option (where the
    class returns [None] for the pose), raises nothing, leaves the solver
    alone and calls the detector only. *)
Theorem X14_control_not_found (obs : Image) (option : Z) (w : World unit)
    (centers : ndarray) :
  findCirclesGrid obs (8, 3)%Z CALIB_CB_SYMMETRIC_GRID visual_servo_control.detector
  = (false, centers) ->
  fst (visual_servo_control.get_pose obs option w)
  = Ok (false, visual_servo_control.EmptyArray) /\
  calls (snd (visual_servo_control.get_pose obs option w))
  = calls w ++ [CallFindCirclesGrid obs (8, 3)%Z CALIB_CB_SYMMETRIC_GRID
                  visual_servo_control.detector] /\
  existsb is_solvePnP
    (drop (length (calls w)) (calls (snd (visual_servo_control.get_pose obs option w))))
  = false.
Proof.
  intros Hdet. rewrite (control_get_pose_not_detected obs option w centers Hdet). simpl.
  repeat split. now rewrite drop_app_length.
Qed.

(** The solving branch makes the solver call whatever the solver
    answers. *)
Lemma solve_branch_calls (detection : bool) (centers K dist : ndarray) (w : World unit) :
  calls (snd (visual_servo_control.solve_branch detection centers K dist w))
  = calls w ++ [CallSolvePnP (grid 0.0125 3 8) centers (Some K) (Some dist)].
Proof.
  unfold visual_servo_control.solve_branch, bind, lift, cv2_solvePnP, bind, log,
    lift, ret, slice_all_0_all.
  rewrite control_pattern. simpl.
  destruct (solvePnP (grid 0.0125 3 8) centers (Some K) (Some dist))
    as [[[success rv] tv] | e]; simpl; [| reflexivity].
  destruct (let! r := getitem tv 2 in getitem r 0)%py as [x | e]; simpl; [| reflexivity].
  destruct (let! r := getitem tv 0 in getitem r 0)%py as [y | e]; simpl; [| reflexivity].
  destruct (let! r := getitem rv 1 in
            let! t := getitem r 0 in Ok (rad2deg t))%py as [t | e]; reflexivity.
Qed.

(** X15. In every call the free function asks the detector once, for a
    pattern of 8 columns and 3 rows, and asks the solver once more exactly
    when a detection was reported and the option is one of 0, 1, 2, 3,
    with the 3 x 8 pattern 0.0125 apart and the calibration that
    [initialize_camera_matrix] assigns for the same number. *)
Theorem X15_control_opencv_calls (obs : Image) (option : Z) (w : World unit) :
  let found :=
    findCirclesGrid obs (8, 3)%Z CALIB_CB_SYMMETRIC_GRID visual_servo_control.detector in
  calls (snd (visual_servo_control.get_pose obs option w))
  = calls w
    ++ CallFindCirclesGrid obs (8, 3)%Z CALIB_CB_SYMMETRIC_GRID visual_servo_control.detector
    :: (if fst found && (0 <=? option)%Z && (option <=? 3)%Z
        then [CallSolvePnP (grid 0.0125 3 8) (snd found)
                (fst (selected option (None, None)))
                (snd (selected option (None, None)))]
        else []).
Proof.
  intros found. subst found.
  destruct (findCirclesGrid obs (8, 3)%Z CALIB_CB_SYMMETRIC_GRID
              visual_servo_control.detector) as [[|] centers] eqn:Hdet; simpl.
  - destruct (Z.leb_spec 0 option) as [H0 | H0], (Z.leb_spec option 3) as [H3 | H3];
      simpl;
      try (rewrite (control_get_pose_other obs option w centers ltac:(lia) Hdet);
           reflexivity).
    unfold visual_servo_control.get_pose, selected.
    destruct (getOptimalNewCameraMatrix estimation.raw_camera_matrix
                estimation.nominal_distortion_coefs (640, 480)%Z 0) as [rectified roi].
    unfold bind at 1. unfold cv2_findCirclesGrid, bind, log, ret. simpl.
    rewrite Hdet. simpl.
    assert (Hcases : option = 0%Z \/ option = 1%Z \/ option = 2%Z \/ option = 3%Z) by lia.
    destruct Hcases as [-> | [-> | [-> | ->]]]; simpl;
      rewrite solve_branch_calls; simpl; now rewrite <- app_assoc.
  - now rewrite (control_get_pose_not_detected obs option w centers Hdet).
Qed.
End ControlExtras.

Lemma X14_control_not_found_witness :
  fst (@visual_servo_control.get_pose (stub_cv2 false true 0 0 5) stub_image 0
         (mkWorld tt []))
  = Ok (false, visual_servo_control.EmptyArray).
Proof.
  exact (proj1 (@X14_control_not_found (stub_cv2 false true 0 0 5) stub_image 0
                  (mkWorld tt []) [] eq_refl)).
Defined.

(** * Properties of the teleoperation loop *)

Section UpdateExtras.
Import visual_servo_control.

(** X16. When SPACE and LSHIFT are held together [update] raises
    NumPy's [UFuncTypeError] before it steps the simulator, whatever the
    arrow keys: SPACE rebinds the action to an integer array and the speed
    boost multiplies it in place by the float 1.5. *)
Theorem X16_update_space_with_shift_raises (key_handler : Key -> bool) :
  key_handler SPACE = true -> key_handler LSHIFT = true ->
  update_action key_handler = UFuncTypeError.
Proof.
  intros Hspace Hshift. unfold update_action. rewrite Hspace, Hshift.
  destruct (key_handler UP), (key_handler DOWN), (key_handler LEFT),
    (key_handler RIGHT); reflexivity.
Qed.

(** X17. When SPACE is held without LSHIFT the action is the integer
    array [[0, 0]], whatever the arrow keys. *)
Theorem X17_update_space_stops (key_handler : Key -> bool) :
  key_handler SPACE = true -> key_handler LSHIFT = false ->
  update_action key_handler = Updated (mkArray2 np_int 0 0).
Proof.
  intros Hspace Hshift. unfold update_action. rewrite Hspace, Hshift.
  destruct (key_handler UP), (key_handler DOWN), (key_handler LEFT),
    (key_handler RIGHT); reflexivity.
Qed.

(** X18. When SPACE is not held the action computation raises nothing
    and gives a float array: the first component is 0.44 times (UP minus
    DOWN), the second LEFT minus RIGHT, both times 1.5 under LSHIFT; so
    opposite keys cancel, the first component is within 0.66 of zero and
    the second within 1.5. *)
Theorem X18_update_arrow_action (key_handler : Key -> bool) :
  key_handler SPACE = false ->
  let held := fun k => if key_handler k then 1%R else 0%R in
  let boost := if key_handler LSHIFT then 1.5%R else 1%R in
  exists v omega : R,
    update_action key_handler = Updated (mkArray2 np_float v omega) /\
    v = (boost * (0.44 * (held UP - held DOWN)))%R /\
    omega = (boost * (held LEFT - held RIGHT))%R /\
    (Rabs v <= 0.66)%R /\ (Rabs omega <= 1.5)%R.
Proof.
  intros Hspace held boost. unfold update_action, held, boost. rewrite Hspace.
  destruct (key_handler UP), (key_handler DOWN), (key_handler LEFT),
    (key_handler RIGHT), (key_handler LSHIFT);
    cbv [when iadd isub imul_float inplace bindI setitem0 setitem1 dtype_of item0 item1
         result_type can_cast_same_kind];
    (eexists; eexists; split; [reflexivity |]);
    (split; [lra |]); (split; [lra |]); split; apply Rabs_le; lra.
Qed.

End UpdateExtras.

Lemma X16_update_space_with_shift_raises_witness :
  visual_servo_control.update_action
    (holding [visual_servo_control.UP; visual_servo_control.SPACE;
              visual_servo_control.LSHIFT])
  = visual_servo_control.UFuncTypeError.
Proof.
  exact (X16_update_space_with_shift_raises
           (holding [visual_servo_control.UP; visual_servo_control.SPACE;
                     visual_servo_control.LSHIFT]) eq_refl eq_refl).
Defined.

Lemma X17_update_space_stops_witness :
  visual_servo_control.update_action
    (holding [visual_servo_control.UP; visual_servo_control.LEFT;
              visual_servo_control.SPACE])
  = visual_servo_control.Updated
      (visual_servo_control.mkArray2 visual_servo_control.np_int 0 0).
Proof.
  exact (X17_update_space_stops
           (holding [visual_servo_control.UP; visual_servo_control.LEFT;
                     visual_servo_control.SPACE]) eq_refl eq_refl).
Defined.

Lemma X18_update_arrow_action_witness :
  exists v omega : R,
    visual_servo_control.update_action
      (holding [visual_servo_control.UP; visual_servo_control.DOWN;
                visual_servo_control.LEFT; visual_servo_control.LSHIFT])
    = visual_servo_control.Updated
        (visual_servo_control.mkArray2 visual_servo_control.np_float v omega) /\
    v = (1.5 * (0.44 * (1 - 1)))%R /\ omega = (1.5 * (1 - 0))%R.
Proof.
  destruct (X18_update_arrow_action
              (holding [visual_servo_control.UP; visual_servo_control.DOWN;
                        visual_servo_control.LEFT; visual_servo_control.LSHIFT]) eq_refl)
    as (v & omega & Hact & Hv & Homega & _).
  exists v, omega. split; [exact Hact |]. split; [exact Hv | exact Homega].
Defined.

(** X20. The free function [calc_circle_pattern(height, width)] and the
    method [_calc_circle_pattern] of an estimator with spacing 0.0125 give the
    same result for all integer sizes; in particular the free function
    raises [ValueError] whenever [height * width] is negative. *)
Theorem X20_pattern_generators_agree (height width : Z) :
  visual_servo_control.calc_circle_pattern height width
  = estimation._calc_circle_pattern 0.0125 height width /\
  ((height * width < 0)%Z ->
   visual_servo_control.calc_circle_pattern height width = Raise ValueError).
Proof.
  split; [reflexivity |].
  change (visual_servo_control.calc_circle_pattern height width)
    with (estimation._calc_circle_pattern 0.0125 height width).
  destruct (calc_circle_pattern_cases 0.0125 height width)
    as [[Hneg E] | [(Hpos & Hsize & E) | (Hh & Hw & E)]]; rewrite E; [reflexivity | lia | lia].
Qed.
